(** * lnd (wakiyamap fork): chain parameters and the UTXO nursery

    A shallow embedding of
    - [chainparams.go]: the network parameter sets, [isTestnet], and
      [applyMonacoinParams] on the shared parameter objects;
    - [chainregistry.go]: the chain codes, the genesis tables, the chain
      registry and the address of the chain backend;
    - the nursery test harness ([utxonursery_test.go]): its test vectors,
      its resolutions, its mock notifier and its scenarios;
    - the nursery itself (store, incubator, sweep pipeline, report), whose
      implementation files are not among the sources and which is therefore
      modelled from the specification, each such definition saying so. *)

From Stdlib Require Import ZArith NArith List Bool Lia Arith.
From Stdlib Require Import Strings.Byte.
From Stdlib Require Strings.String Strings.Ascii Numbers.DecimalString.
From stdpp Require gmap strings.
Import ListNotations.

Local Open Scope Z_scope.

(* ================================================================== *)
(** * Chain parameters ([chainparams.go]) *)
(* ================================================================== *)

Module ChainParams.

(** [wire.BitcoinNet] is a [uint32]; a conversion [BitcoinNet(x)] of another
    [uint32] keeps the 32 bits as they are. *)
Definition BitcoinNet (x : Z) : Z := x mod 2 ^ 32.

(** The network magics come from the two [wire] packages the file imports
    ([btcd/wire/protocol.go] and [monad/wire/protocol.go]), which are
    dependencies of the repository and not part of it. *)
Module bitcoinWire.
Definition MainNet  : Z := 0xd9b4bef9.
Definition TestNet  : Z := 0xdab5bffa.   (* regression test network *)
Definition TestNet3 : Z := 0x0709110b.
Definition SimNet   : Z := 0x12141c16.
End bitcoinWire.

Module monacoinWire.
Definition MainNet  : Z := 0xdbb6c0fb.
Definition TestNet  : Z := 0xdab5bffa.   (* regression test network *)
Definition TestNet4 : Z := 0xf1c8d2fd.
Definition SimNet   : Z := 0x12141c16.
End monacoinWire.

(** The coin types of [keychain]. *)
Definition CoinTypeBitcoin  : Z := 0.
Definition CoinTypeTestnet  : Z := 1.
Definition CoinTypeMonacoin : Z := 22.

(** [chaincfg.Params], restricted to the field [isTestnet] reads. *)
Record Params := mkParams { Net : Z }.

(** [bitcoinNetParams] and [monacoinNetParams]: the embedded [*Params], the
    RPC port (kept as a number) and the coin type. *)
Record bitcoinNetParams := mkBitcoinNetParams
  { bParams : Params; b_rpcPort : Z; b_CoinType : Z }.

Record monacoinNetParams := mkMonacoinNetParams
  { mParams : Params; m_rpcPort : Z; m_CoinType : Z }.

Definition bitcoinTestNetParams : bitcoinNetParams :=
  mkBitcoinNetParams (mkParams bitcoinWire.TestNet3) 18334 CoinTypeTestnet.

Definition bitcoinMainNetParams : bitcoinNetParams :=
  mkBitcoinNetParams (mkParams bitcoinWire.MainNet) 8334 CoinTypeBitcoin.

Definition bitcoinSimNetParams : bitcoinNetParams :=
  mkBitcoinNetParams (mkParams bitcoinWire.SimNet) 18556 CoinTypeTestnet.

Definition monacoinTestNetParams : monacoinNetParams :=
  mkMonacoinNetParams (mkParams monacoinWire.TestNet4) 19400 CoinTypeTestnet.

Definition monacoinMainNetParams : monacoinNetParams :=
  mkMonacoinNetParams (mkParams monacoinWire.MainNet) 9400 CoinTypeMonacoin.

Definition regTestNetParams : bitcoinNetParams :=
  mkBitcoinNetParams (mkParams bitcoinWire.TestNet) 18334 CoinTypeTestnet.

(** [applyMonacoinParams], on the fields modelled here: the network magic is
    converted to a [BitcoinNet], port and coin type are copied. *)
Definition applyMonacoinParams (params : bitcoinNetParams)
    (monacoinParams : monacoinNetParams) : bitcoinNetParams :=
  mkBitcoinNetParams
    (mkParams (BitcoinNet (Net (mParams monacoinParams))))
    (m_rpcPort monacoinParams)
    (m_CoinType monacoinParams).

(** [isTestnet]: a switch on [params.Params.Net] with one case listing the
    two test networks. *)
Definition isTestnet (params : bitcoinNetParams) : bool :=
  let net := Net (bParams params) in
  if Z.eqb net bitcoinWire.TestNet3 then true
  else if Z.eqb net (BitcoinNet monacoinWire.TestNet4) then true
  else false.

(** Parameter sets for the Monacoin simulation and regression networks are
    not declared in [chainparams.go]; these carry the magics of
    [monacoinWire] for the comparison [isTestnet] makes. *)
Definition monacoinSimNetParams : monacoinNetParams :=
  mkMonacoinNetParams (mkParams monacoinWire.SimNet) 18556 CoinTypeTestnet.

Definition monacoinRegTestNetParams : monacoinNetParams :=
  mkMonacoinNetParams (mkParams monacoinWire.TestNet) 18334 CoinTypeTestnet.

End ChainParams.

(* ================================================================== *)
(** * Records of the nursery and their serialization *)
(* ================================================================== *)

Module Wire.

(** ** Bytes, readers and fixed-width integers *)

(** The low eight bits of an integer, as a byte. *)
Definition byte_of_Z (n : Z) : byte :=
  match Byte.of_N (Z.to_N (n mod 256)) with
  | Some b => b
  | None => x00
  end.

Definition Z_of_byte (b : byte) : Z := Z.of_N (Byte.to_N b).

(** [binary.BigEndian.PutUintN]: the [k] low bytes of [n], most significant
    first. *)
Fixpoint be_put (k : nat) (n : Z) : list byte :=
  match k with
  | O => []
  | S k' => be_put k' (n / 256) ++ [byte_of_Z n]
  end.

Definition be_val (bs : list byte) : Z :=
  fold_left (fun acc b => acc * 256 + Z_of_byte b) bs 0.

(** A reader consumes a prefix of the input or fails ([io.ReadFull]
    returning an error). *)
Definition Reader (A : Type) : Type := list byte -> option (A * list byte).

Definition ret {A} (x : A) : Reader A := fun bs => Some (x, bs).

Definition bind {A B} (r : Reader A) (f : A -> Reader B) : Reader B :=
  fun bs => match r bs with
            | Some (x, rest) => f x rest
            | None => None
            end.

Definition fail {A} : Reader A := fun _ => None.

Notation "x <- r ;; k" := (bind r (fun x => k))
  (at level 61, r at next level, right associativity).

Definition take (k : nat) : Reader (list byte) :=
  fun bs => if (length bs <? k)%nat then None
            else Some (firstn k bs, skipn k bs).

Definition get_uint (k : nat) : Reader Z :=
  bs <- take k ;; ret (be_val bs).

(** Signed 64-bit values travel as their two's complement [uint64]. *)
Definition put_int64 (v : Z) : list byte := be_put 8 (v mod 2 ^ 64).

Definition get_int64 : Reader Z :=
  u <- get_uint 8 ;; ret (if u <? 2 ^ 63 then u else u - 2 ^ 64).

(** Byte strings carry a four-byte length prefix. *)
Definition put_bytes (bs : list byte) : list byte :=
  be_put 4 (Z.of_nat (length bs)) ++ bs.

Definition get_bytes : Reader (list byte) :=
  n <- get_uint 4 ;; take (Z.to_nat n).

(** A sequence carries a four-byte element count. *)
Fixpoint get_many {A} (r : Reader A) (n : nat) : Reader (list A) :=
  match n with
  | O => ret []
  | S n' => x <- r ;; xs <- get_many r n' ;; ret (x :: xs)
  end.

Definition put_list {A} (put : A -> list byte) (xs : list A) : list byte :=
  be_put 4 (Z.of_nat (length xs)) ++ concat (map put xs).

Definition get_list {A} (r : Reader A) : Reader (list A) :=
  n <- get_uint 4 ;; get_many r (Z.to_nat n).

(** A pointer field travels as a presence byte followed by the value. *)
Definition put_opt {A} (put : A -> list byte) (o : option A) : list byte :=
  match o with
  | None => [x00]
  | Some x => x01 :: put x
  end.

Definition get_opt {A} (r : Reader A) : Reader (option A) :=
  t <- get_uint 1 ;;
  if t =? 0 then ret None
  else if t =? 1 then (x <- r ;; ret (Some x))
  else fail.

(** A reader inverts a writer on the values satisfying [ok], whatever
    follows them in the input. *)
Definition inverts {A} (r : Reader A) (put : A -> list byte)
    (ok : A -> Prop) : Prop :=
  forall x rest, ok x -> r (put x ++ rest) = Some (x, rest).

(** ** [wire.OutPoint], [wire.TxOut], [wire.TxIn], [wire.MsgTx] *)

Definition HashSize : nat := 32.

Record OutPoint := mkOutPoint
  { Hash : list byte;      (* [chainhash.HashSize]byte *)
    Index : Z }.           (* uint32 *)

Record TxOut := mkTxOut
  { Value : Z;             (* int64 *)
    PkScript : list byte }.

Record TxIn := mkTxIn
  { PreviousOutPoint : OutPoint;
    SignatureScript : list byte;
    Witness : list (list byte);
    Sequence : Z }.        (* uint32 *)

Record MsgTx := mkMsgTx
  { Version : Z;           (* int32 *)
    TxIn_ : list TxIn;
    TxOut_ : list TxOut;
    LockTime : Z }.        (* uint32 *)

Definition writeOutpoint (o : OutPoint) : list byte :=
  Hash o ++ be_put 4 (Index o).

Definition readOutpoint : Reader OutPoint :=
  h <- take HashSize ;; i <- get_uint 4 ;; ret (mkOutPoint h i).

Definition writeTxOut (o : TxOut) : list byte :=
  put_int64 (Value o) ++ put_bytes (PkScript o).

Definition readTxOut : Reader TxOut :=
  v <- get_int64 ;; s <- get_bytes ;; ret (mkTxOut v s).

Definition writeTxIn (i : TxIn) : list byte :=
  writeOutpoint (PreviousOutPoint i) ++ put_bytes (SignatureScript i)
  ++ put_list put_bytes (Witness i) ++ be_put 4 (Sequence i).

Definition readTxIn : Reader TxIn :=
  o <- readOutpoint ;; s <- get_bytes ;; w <- get_list get_bytes ;;
  q <- get_uint 4 ;; ret (mkTxIn o s w q).

(** [MsgTx.Serialize]: version, inputs, outputs, lock time. *)
Definition Serialize (tx : MsgTx) : list byte :=
  be_put 4 (Version tx mod 2 ^ 32) ++ put_list writeTxIn (TxIn_ tx)
  ++ put_list writeTxOut (TxOut_ tx) ++ be_put 4 (LockTime tx).

Definition Deserialize : Reader MsgTx :=
  u <- get_uint 4 ;; ins <- get_list readTxIn ;;
  outs <- get_list readTxOut ;; l <- get_uint 4 ;;
  ret (mkMsgTx (if u <? 2 ^ 31 then u else u - 2 ^ 32) ins outs l).

(** ** [lnwallet.WitnessType] and [lnwallet.SignDescriptor] *)

(** The witness types a nursery output can carry, with the [uint16] value
    of each in [lnwallet]'s enumeration. *)
Inductive WitnessType :=
  | CommitmentTimeLock
  | HtlcOfferedTimeoutSecondLevel
  | HtlcAcceptedSuccessSecondLevel
  | HtlcOfferedRemoteTimeout
  | HtlcAcceptedRemoteSuccess.

Definition witnessType_code (w : WitnessType) : Z :=
  match w with
  | CommitmentTimeLock => 0
  | HtlcOfferedTimeoutSecondLevel => 5
  | HtlcAcceptedSuccessSecondLevel => 6
  | HtlcOfferedRemoteTimeout => 7
  | HtlcAcceptedRemoteSuccess => 8
  end.

Definition witnessType_of_code (c : Z) : option WitnessType :=
  if c =? 0 then Some CommitmentTimeLock
  else if c =? 5 then Some HtlcOfferedTimeoutSecondLevel
  else if c =? 6 then Some HtlcAcceptedSuccessSecondLevel
  else if c =? 7 then Some HtlcOfferedRemoteTimeout
  else if c =? 8 then Some HtlcAcceptedRemoteSuccess
  else None.

(** The fields of a sign descriptor the test vectors set: the public key of
    the key descriptor (serialized; a nil pointer is [None]), the single
    tweak, the witness script, the output being spent and the hash type. *)
Record SignDescriptor := mkSignDescriptor
  { PubKey : option (list byte);
    SingleTweak : list byte;
    WitnessScript : list byte;
    Output : option TxOut;
    HashType : Z }.        (* txscript.SigHashType, uint32 *)

Definition WriteSignDescriptor (sd : SignDescriptor) : list byte :=
  put_opt put_bytes (PubKey sd) ++ put_bytes (SingleTweak sd)
  ++ put_bytes (WitnessScript sd) ++ put_opt writeTxOut (Output sd)
  ++ be_put 4 (HashType sd).

Definition ReadSignDescriptor : Reader SignDescriptor :=
  pk <- get_opt get_bytes ;; st <- get_bytes ;; ws <- get_bytes ;;
  o <- get_opt readTxOut ;; ht <- get_uint 4 ;;
  ret (mkSignDescriptor pk st ws o ht).

(** ** [kidOutput] and [babyOutput] *)

(** [kidOutput] with the fields of the embedded [breachedOutput] inlined,
    as the test vectors fill them. *)
Record kidOutput := mkKidOutput
  { amt : Z;                       (* btcutil.Amount, int64 *)
    outpoint : OutPoint;
    witnessType : WitnessType;
    signDesc : SignDescriptor;
    originChanPoint : OutPoint;
    blocksToMaturity : Z;          (* uint32 *)
    confHeight : Z }.              (* uint32 *)

Record babyOutput := mkBabyOutput
  { kid : kidOutput;
    expiry : Z;                    (* uint32 *)
    timeoutTx : MsgTx }.

(** Modelled from the spec: [kidOutput.Encode], [kidOutput.Decode],
    [babyOutput.Encode] and [babyOutput.Decode] are in [utxonursery.go],
    which is not among the sources. Section 4.1: "Records are encoded as
    length-prefixed, versioned byte blobs; every field decodes to exactly
    the value encoded. Unknown versions fail with a fatal decode error."
    The blob is a four-byte length, then a version byte, then the fields in
    the order section 3 lists them. *)
Definition recordVersion : Z := 0.

Definition kidBody (k : kidOutput) : list byte :=
  be_put 1 recordVersion
  ++ put_int64 (amt k) ++ writeOutpoint (outpoint k)
  ++ be_put 2 (witnessType_code (witnessType k))
  ++ WriteSignDescriptor (signDesc k)
  ++ be_put 4 (blocksToMaturity k) ++ be_put 4 (confHeight k)
  ++ writeOutpoint (originChanPoint k).

Definition readWitnessType : Reader WitnessType :=
  c <- get_uint 2 ;;
  match witnessType_of_code c with
  | Some w => ret w
  | None => fail
  end.

Definition readVersion : Reader unit :=
  v <- get_uint 1 ;; if v =? recordVersion then ret tt else fail.

Definition readKidBody : Reader kidOutput :=
  _ <- readVersion ;;
  a <- get_int64 ;; op <- readOutpoint ;; wt <- readWitnessType ;;
  sd <- ReadSignDescriptor ;; btm <- get_uint 4 ;; ch <- get_uint 4 ;;
  ocp <- readOutpoint ;;
  ret (mkKidOutput a op wt sd ocp btm ch).

(** Run a reader on a length-prefixed blob; the blob must be consumed
    entirely. *)
Definition readBlob {A} (r : Reader A) : Reader A :=
  body <- get_bytes ;;
  match r body with
  | Some (x, []) => ret x
  | _ => fail
  end.

Definition kidEncode (k : kidOutput) : list byte := put_bytes (kidBody k).

Definition kidDecode : Reader kidOutput := readBlob readKidBody.

Definition babyBody (b : babyOutput) : list byte :=
  be_put 1 recordVersion
  ++ be_put 4 (expiry b) ++ put_bytes (Serialize (timeoutTx b))
  ++ kidEncode (kid b).

Definition readBabyBody : Reader babyOutput :=
  _ <- readVersion ;;
  e <- get_uint 4 ;; tx <- readBlob Deserialize ;; k <- kidDecode ;;
  ret (mkBabyOutput k e tx).

Definition babyEncode (b : babyOutput) : list byte := put_bytes (babyBody b).

Definition babyDecode : Reader babyOutput := readBlob readBabyBody.

(** ** Ranges of the fields

    The Go types bound every field: these predicates say that a value of
    the embedding is a value of its Go type. *)
Definition uint32_ok (n : Z) : Prop := 0 <= n < 2 ^ 32.
Definition int64_ok (n : Z) : Prop := - 2 ^ 63 <= n < 2 ^ 63.
Definition int32_ok (n : Z) : Prop := - 2 ^ 31 <= n < 2 ^ 31.
Definition bytes_ok (bs : list byte) : Prop := Z.of_nat (length bs) < 2 ^ 32.

Definition OutPoint_ok (o : OutPoint) : Prop :=
  length (Hash o) = HashSize /\ uint32_ok (Index o).

Definition TxOut_ok (o : TxOut) : Prop :=
  int64_ok (Value o) /\ bytes_ok (PkScript o).

Definition opt_ok {A} (P : A -> Prop) (o : option A) : Prop :=
  match o with Some x => P x | None => True end.

Definition TxIn_ok (i : TxIn) : Prop :=
  OutPoint_ok (PreviousOutPoint i) /\ bytes_ok (SignatureScript i)
  /\ Forall bytes_ok (Witness i)
  /\ Z.of_nat (length (Witness i)) < 2 ^ 32
  /\ uint32_ok (Sequence i).

Definition MsgTx_ok (tx : MsgTx) : Prop :=
  int32_ok (Version tx)
  /\ Forall TxIn_ok (TxIn_ tx) /\ Z.of_nat (length (TxIn_ tx)) < 2 ^ 32
  /\ Forall TxOut_ok (TxOut_ tx) /\ Z.of_nat (length (TxOut_ tx)) < 2 ^ 32
  /\ uint32_ok (LockTime tx)
  /\ bytes_ok (Serialize tx).

Definition SignDescriptor_ok (sd : SignDescriptor) : Prop :=
  opt_ok bytes_ok (PubKey sd) /\ bytes_ok (SingleTweak sd)
  /\ bytes_ok (WitnessScript sd) /\ opt_ok TxOut_ok (Output sd)
  /\ uint32_ok (HashType sd).

Definition kidOutput_ok (k : kidOutput) : Prop :=
  int64_ok (amt k) /\ OutPoint_ok (outpoint k)
  /\ SignDescriptor_ok (signDesc k)
  /\ uint32_ok (blocksToMaturity k) /\ uint32_ok (confHeight k)
  /\ OutPoint_ok (originChanPoint k)
  /\ bytes_ok (kidBody k).

Definition babyOutput_ok (b : babyOutput) : Prop :=
  kidOutput_ok (kid b) /\ uint32_ok (expiry b) /\ MsgTx_ok (timeoutTx b)
  /\ bytes_ok (babyBody b).

End Wire.

(* ================================================================== *)
(** * Test vectors ([utxonursery_test.go]) *)
(* ================================================================== *)

Module TestVectors.
Import Wire.

Definition outPoint0 : OutPoint :=
  mkOutPoint
    [x51; xb6; x37; xd8; xfc; xd2; xc6; xda;
     x48; x59; xe6; x96; x31; x13; xa1; x17;
     x2d; xe7; x93; xe4; xb7; x25; xb8; x4d;
     x1f; x0b; x4c; xf9; x9e; xc5; x8c; xe9]
    9.

Definition outPoint1 : OutPoint :=
  mkOutPoint
    [xb7; x94; x38; x5f; x2d; x1e; xf7; xab;
     x4d; x92; x73; xd1; x90; x63; x81; xb4;
     x4f; x2f; x6f; x25; x88; xa3; xef; xb9;
     x6a; x49; x18; x83; x31; x98; x47; x53]
    49.

Definition outPoint2 : OutPoint :=
  mkOutPoint
    [x81; xb6; x37; xd8; xfc; xd2; xc6; xda;
     x63; x59; xe6; x96; x31; x13; xa1; x17;
     x0d; xe7; x95; xe4; xb7; x25; xb8; x4d;
     x1e; x0b; x4c; xfd; x9e; xc5; x8c; xe9]
    23.

Definition outPoint3 : OutPoint :=
  mkOutPoint
    [x1e; x0b; x4c; xfd; x9e; xc5; x8c; xe9;
     x81; xb6; x37; xd8; xfc; xd2; xc6; xda;
     x0d; xe7; x95; xe4; xb7; x25; xb8; x4d;
     x63; x59; xe6; x96; x31; x13; xa1; x17]
    30.

Definition outPoint4 : OutPoint :=
  mkOutPoint
    [x0d; xe7; x95; xe4; xfc; xd2; xc6; xda;
     xb7; x25; xb8; x4d; x63; x59; xe6; x96;
     x31; x13; xa1; x17; x81; xb6; x37; xd8;
     x1e; x0b; x4c; xfd; x9e; xc5; x8c; xe9]
    2.

Definition outPoint5 : OutPoint :=
  mkOutPoint
    [x48; x59; xe6; x96; x31; x13; xa1; x17;
     x51; xb6; x37; xd8; x1f; x0b; x4c; xf9;
     x9e; xc5; x8c; xe9; xfc; xd2; xc6; xda;
     x2d; xe7; x93; xe4; xb7; x25; xb8; x4d]
    9.

Definition outPoints : list OutPoint :=
  [outPoint0; outPoint1; outPoint2; outPoint3; outPoint4; outPoint5].

Definition key0 : list byte :=
    [x04; x11; xdb; x93; xe1; xdc; xdb; x8a;
     x01; x6b; x49; x84; x0f; x8c; x53; xbc;
     x1e; xb6; x8a; x38; x2e; x97; xb1; x48;
     x2e; xca; xd7; xb1; x48; xa6; x90; x9a;
     x5c; xb2; xe0; xea; xdd; xfb; x84; xcc;
     xf9; x74; x44; x64; xf8; x2e; x16; x0b;
     xfa; x9b; x8b; x64; xf9; xd4; xc0; x3f;
     x99; x9b; x86; x43; xf6; x56; xb4; x12;
     xa3].

Definition key1 : list byte :=
    [x07; x11; xdb; x93; xe1; xdc; xdb; x8a;
     x01; x6b; x49; x84; x0f; x8c; x53; xbc;
     x1e; xb6; x8a; x38; x2e; x97; xb1; x48;
     x2e; xca; xd7; xb1; x48; xa6; x90; x9a;
     x5c; xb2; xe0; xea; xdd; xfb; x84; xcc;
     xf9; x74; x44; x64; xf8; x2e; x16; x0b;
     xfa; x9b; x8b; x64; xf9; xd4; xc0; x3f;
     x99; x9b; x86; x43; xf6; x56; xb4; x12;
     xa3].

Definition key2 : list byte :=
    [x02; xce; x0b; x14; xfb; x84; x2b; x1b;
     xa5; x49; xfd; xd6; x75; xc9; x80; x75;
     xf1; x2e; x9c; x51; x0f; x8e; xf5; x2b;
     xd0; x21; xa9; xa1; xf4; x80; x9d; x3b;
     x4d].

Definition keys : list (list byte) := [key0; key1; key2].

Definition vecSingleTweak : list byte :=
    [x02; x02; x02; x02; x02; x02; x02; x02;
     x02; x02; x02; x02; x02; x02; x02; x02;
     x02; x02; x02; x02; x02; x02; x02; x02;
     x02; x02; x02; x02; x02; x02; x02; x02].

Definition vecWitnessScript : list byte :=
    [x00; x14; xee; x91; x41; x7e; x85; x6c;
     xde; x10; xa2; x91; x1e; xdc; xbd; xbd;
     x69; xe2; xef; xb5; x71; x48].

Definition vecPkScript : list byte :=
    [x41; x04; xd6; x4b; xdf; xd0; x9e; xb1;
     xc5; xfe; x29; x5a; xbd; xeb; x1d; xca;
     x42; x81; xbe; x98; x8e; x2d; xa0; xb6;
     xc1; xc6; xa5; x9d; xc2; x26; xc2; x86;
     x24; xe1; x81; x75; xe8; x51; xc9; x6b;
     x97; x3d; x81; xb0; x1c; xc3; x1f; x04;
     x78; x34; xbc; x06; xd6; xd6; xed; xf6;
     x20; xd1; x84; x24; x1a; x6a; xed; x8b;
     x63; xa6; xac].

Definition SigHashAll : Z := 1.

(** The three sign descriptors have the same tweak, script and output; the
    [init] function gives the [i]-th one the key parsed from [keys[i]],
    which is represented here by the bytes it was parsed from. *)
Definition signDescriptor (key : list byte) : SignDescriptor :=
  mkSignDescriptor (Some key) vecSingleTweak vecWitnessScript
    (Some (mkTxOut 5000000000 vecPkScript)) SigHashAll.

Definition signDescriptors : list SignDescriptor :=
  [signDescriptor key0; signDescriptor key1; signDescriptor key2].

Definition nth_signDescriptor (i : nat) : SignDescriptor :=
  nth (i mod 3) signDescriptors (signDescriptor key0).

(** [kidOutputs], after [init] has set [signDesc] to
    [signDescriptors[i % len(signDescriptors)]]. *)
Definition kidOutput0 : kidOutput :=
  mkKidOutput 130000000 outPoint1 CommitmentTimeLock (nth_signDescriptor 0)
    outPoint0 42 1000.

Definition kidOutput1 : kidOutput :=
  mkKidOutput 240000000 outPoint2 CommitmentTimeLock (nth_signDescriptor 1)
    outPoint0 42 1000.

Definition kidOutput2 : kidOutput :=
  mkKidOutput 200000 outPoint3 CommitmentTimeLock (nth_signDescriptor 2)
    outPoint0 28 500.

Definition kidOutput3 : kidOutput :=
  mkKidOutput 10000000 outPoint4 CommitmentTimeLock (nth_signDescriptor 3)
    outPoint0 28 500.

Definition kidOutputs : list kidOutput :=
  [kidOutput0; kidOutput1; kidOutput2; kidOutput3].

(** The dummy timeout transaction. *)
Definition timeoutTxPrevHash : list byte :=
    [xa5; x33; x52; xd5; x13; x57; x66; xf0;
     x30; x76; x59; x74; x18; x26; x3d; xa2;
     xd9; xc9; x58; x31; x59; x68; xfe; xa8;
     x23; x52; x94; x67; x48; x1f; xf9; xcd].

Definition timeoutTxSig : list byte :=
    [x30; x43; x02; x1f; x4d; x23; x81; xdc;
     x97; xf1; x82; xab; xd8; x18; x5f; x51;
     x75; x30; x18; x52; x32; x12; xf5; xdd;
     xc0; x7c; xc4; xe6; x3a; x8d; xc0; x36;
     x58; xda; x19; x02; x20; x60; x8b; x5c;
     x4d; x92; xb8; x6b; x6d; xe7; xd7; x8e;
     xf2; x3a; x2f; xa7; x35; xbc; xb5; x9b;
     x91; x4a; x48; xb0; xe1; x87; xc5; xe7;
     x56; x9a; x18; x19; x70; x01].

Definition timeoutTxPub : list byte :=
    [x03; x07; xea; xd0; x84; x80; x7e; xb7;
     x63; x46; xdf; x69; x77; x00; x0c; x89;
     x39; x2f; x45; xc7; x64; x25; xb2; x61;
     x81; xf5; x21; xd7; xf3; x70; x06; x6a;
     x8f].

Definition timeoutTxPkScript : list byte :=
    [x00; x14; x9d; xda; xc6; xf3; x9d; x51;
     xe0; x39; x8e; x53; x2a; x22; xc4; x1b;
     xa1; x89; x40; x6a; x85; x23].

Definition timeoutTx : MsgTx :=
  mkMsgTx 1
    [mkTxIn (mkOutPoint timeoutTxPrevHash 19) []
       [timeoutTxSig; timeoutTxPub] 0xffffffff]
    [mkTxOut 395019 timeoutTxPkScript]
    0.

(** [babyOutputs]: the kid is a copy of [kidOutputs[i+1]] taken before
    [init] runs, and [init] then sets its [signDesc] to
    [signDescriptors[i % len(signDescriptors)]]. *)
Definition with_signDesc (k : kidOutput) (sd : SignDescriptor) : kidOutput :=
  mkKidOutput (amt k) (outpoint k) (witnessType k) sd (originChanPoint k)
    (blocksToMaturity k) (confHeight k).

Definition babyOutput0 : babyOutput :=
  mkBabyOutput (with_signDesc kidOutput1 (nth_signDescriptor 0)) 3829 timeoutTx.

Definition babyOutput1 : babyOutput :=
  mkBabyOutput (with_signDesc kidOutput2 (nth_signDescriptor 1)) 4 timeoutTx.

Definition babyOutput2 : babyOutput :=
  mkBabyOutput (with_signDesc kidOutput3 (nth_signDescriptor 2)) 4 timeoutTx.

Definition babyOutputs : list babyOutput :=
  [babyOutput0; babyOutput1; babyOutput2].

(** [TestKidOutputSerialization] and [TestBabyOutputSerialization]: encode,
    decode, compare. The comparison of [reflect.DeepEqual] is the decoded
    value being the original one. *)
Definition roundTrips {A} (enc : A -> list byte) (dec : Reader A)
    (x : A) : Prop :=
  dec (enc x) = Some (x, []).

End TestVectors.

(* ================================================================== *)
(** * The nursery store *)
(* ================================================================== *)

Module Store.
Import Wire.

(** ** Keys *)

Fixpoint bytes_eqb (a b : list byte) : bool :=
  match a, b with
  | [], [] => true
  | x :: a', y :: b' => Byte.eqb x y && bytes_eqb a' b'
  | _, _ => false
  end.

Definition OutPoint_eqb (a b : OutPoint) : bool :=
  bytes_eqb (Hash a) (Hash b) && (Index a =? Index b).

(** An output is filed under its channel point and its own outpoint
    ([/channel/<chanPoint>/output/<outpoint>]). *)
Definition Key : Type := OutPoint * OutPoint.

Definition key_eqb (a b : Key) : bool :=
  OutPoint_eqb (fst a) (fst b) && OutPoint_eqb (snd a) (snd b).

(** [uint32] addition. *)
Definition add32 (a b : Z) : Z := (a + b) mod 2 ^ 32.

(** ** Stages *)

(** Modelled from the spec: the store ([nursery_store.go]) is not among the
    sources; the test reaches it through the [NurseryStore] interface that
    [nurseryStoreInterceptor] forwards to. Section 3: every output is in
    exactly one of CRIB (a baby), PRESCHOOL, KINDERGARTEN or GRADUATED (a
    kid); the record is stored under the stage it is in. *)
Inductive entry :=
  | Crib (b : babyOutput)
  | Pscl (k : kidOutput)
  | Kndr (k : kidOutput)
  | Grad (k : kidOutput).

Definition entry_kid (e : entry) : kidOutput :=
  match e with
  | Crib b => kid b
  | Pscl k | Kndr k | Grad k => k
  end.

Definition kid_key (k : kidOutput) : Key := (originChanPoint k, outpoint k).

Definition entry_key (e : entry) : Key := kid_key (entry_kid e).

Definition entry_chan (e : entry) : OutPoint := originChanPoint (entry_kid e).

Definition is_grad (e : entry) : bool :=
  match e with Grad _ => true | _ => false end.

(** Modelled from the spec: the three indices of section 3 and the two
    watermarks of the persisted layout of section 6.
    - channel index: the records, each under the key its own fields give;
    - height index: pointers [(h, key)], for KINDERGARTEN kids and CRIB
      babies, at the height of their next action;
    - finalization index: height to sweep transaction. *)
Record Store := mkStore
  { chanIndex : list entry;
    heightIndex : list (Z * Key);
    finalized : list (Z * MsgTx);
    lastGraduatedHeight : Z;
    lastFinalizedHeight : Z }.

Definition emptyStore : Store := mkStore [] [] [] 0 0.

Definition has_key (k : Key) (es : list entry) : bool :=
  existsb (fun e => key_eqb (entry_key e) k) es.

Definition find_entry (k : Key) (es : list entry) : option entry :=
  find (fun e => key_eqb (entry_key e) k) es.

Fixpoint lookup_height {A} (h : Z) (l : list (Z * A)) : option A :=
  match l with
  | [] => None
  | (h', x) :: l' => if h' =? h then Some x else lookup_height h l'
  end.

Definition remove_height {A} (h : Z) (l : list (Z * A)) : list (Z * A) :=
  filter (fun p => negb (fst p =? h)) l.

Definition unfile (k : Key) (hi : list (Z * Key)) : list (Z * Key) :=
  filter (fun p => negb (key_eqb (snd p) k)) hi.

(** The height at which a KINDERGARTEN kid may be swept:
    [confHeight + blocksToMaturity]. *)
Definition maturityHeight (k : kidOutput) : Z :=
  add32 (confHeight k) (blocksToMaturity k).

(** ** Operations (section 4.1) *)

(** Modelled from the spec: "insert records into CRIB (babies) and
    PRESCHOOL (kids), update channel and height indices. Idempotent under
    retry keyed by (channel-point, outpoint): re-inserting the same outpoint
    is a no-op, never an error." A baby is filed at its CLTV expiry; a
    PRESCHOOL kid is not on the height index. *)
Definition insertBaby (s : Store) (b : babyOutput) : Store :=
  if has_key (kid_key (kid b)) (chanIndex s) then s
  else mkStore (chanIndex s ++ [Crib b])
               (heightIndex s ++ [(expiry b, kid_key (kid b))])
               (finalized s) (lastGraduatedHeight s) (lastFinalizedHeight s).

Definition insertKid (s : Store) (k : kidOutput) : Store :=
  if has_key (kid_key k) (chanIndex s) then s
  else mkStore (chanIndex s ++ [Pscl k]) (heightIndex s)
               (finalized s) (lastGraduatedHeight s) (lastFinalizedHeight s).

Definition Incubate (kids : list kidOutput) (babies : list babyOutput)
    (s : Store) : Store :=
  fold_left insertKid kids (fold_left insertBaby babies s).

Definition is_crib_at (k : Key) (e : entry) : bool :=
  match e with Crib _ => key_eqb (entry_key e) k | _ => false end.

Definition is_pscl_at (k : Key) (e : entry) : bool :=
  match e with Pscl _ => key_eqb (entry_key e) k | _ => false end.

Definition is_kndr_at (k : Key) (e : entry) : bool :=
  match e with Kndr _ => key_eqb (entry_key e) k | _ => false end.

(** Modelled from the spec: "replace a baby record with its kid form in
    KINDERGARTEN, recompute height index entry using
    [confHeight + blocksToMaturity]". The caller has set [confHeight] on
    the baby's kid. Without a CRIB record for the baby nothing is applied. *)
Definition CribToKinder (b : babyOutput) (s : Store) : Store :=
  let key := kid_key (kid b) in
  if existsb (is_crib_at key) (chanIndex s) then
    mkStore
      (map (fun e => if is_crib_at key e then Kndr (kid b) else e)
           (chanIndex s))
      (unfile key (heightIndex s) ++ [(maturityHeight (kid b), key)])
      (finalized s) (lastGraduatedHeight s) (lastFinalizedHeight s)
  else s.

(** Modelled from the spec: "set [confHeight] on the kid, move to
    KINDERGARTEN, (re)file on the height index". As in the interface the
    test intercepts, the kid passed in already carries its [confHeight]. *)
Definition PreschoolToKinder (k : kidOutput) (s : Store) : Store :=
  let key := kid_key k in
  if existsb (is_pscl_at key) (chanIndex s) then
    mkStore
      (map (fun e => if is_pscl_at key e then Kndr k else e) (chanIndex s))
      (unfile key (heightIndex s) ++ [(maturityHeight k, key)])
      (finalized s) (lastGraduatedHeight s) (lastFinalizedHeight s)
  else s.

(** The keys the height index files at [h]. *)
Definition keys_at (h : Z) (s : Store) : list Key :=
  map snd (filter (fun p => fst p =? h) (heightIndex s)).

Definition filed_at (h : Z) (s : Store) (k : Key) : bool :=
  existsb (key_eqb k) (keys_at h s).

Definition class_kids (h : Z) (s : Store) : list kidOutput :=
  flat_map (fun e => match e with
                     | Kndr k => if filed_at h s (entry_key e) then [k] else []
                     | _ => []
                     end) (chanIndex s).

Definition class_babies (h : Z) (s : Store) : list babyOutput :=
  flat_map (fun e => match e with
                     | Crib b => if filed_at h s (entry_key e) then [b] else []
                     | _ => []
                     end) (chanIndex s).

(** Modelled from the spec: "return (finalized sweep tx or nil, all
    KINDERGARTEN kids due at <= height not yet graduated, all CRIB babies
    whose CLTV <= height)". The class of a height is what the height index
    files at that height ([/height/<h>/output/<outpoint>]); the classes of
    lower heights are reached one by one through [HeightsBelowOrEqual]
    (section 4.3: "process them in ascending order, one graduateClass per
    height. Never collapse two heights into one sweep tx"). *)
Definition FetchClass (h : Z) (s : Store)
  : option MsgTx * list kidOutput * list babyOutput :=
  (lookup_height h (finalized s), class_kids h s, class_babies h s).

(** Modelled from the spec: "record the constructed sweep transaction for
    [height] (second and subsequent calls with the same [height] must be
    rejected or no-op deterministically)". *)
Definition FinalizeKinder (h : Z) (tx : MsgTx) (s : Store) : Store :=
  match lookup_height h (finalized s) with
  | Some _ => s
  | None =>
      mkStore (chanIndex s) (heightIndex s) (finalized s ++ [(h, tx)])
              (lastGraduatedHeight s) (Z.max (lastFinalizedHeight s) h)
  end.

Definition IsMatureChannel (cp : OutPoint) (es : list entry) : bool :=
  forallb (fun e => if OutPoint_eqb (entry_chan e) cp then is_grad e
                    else true) es.

Definition prune (es : list entry) : list entry :=
  filter (fun e => negb (IsMatureChannel (entry_chan e) es)) es.

(** The records after the KINDERGARTEN outputs of the class of [h] have
    been moved to GRADUATED, before any channel is pruned. *)
Definition graduateEntries (h : Z) (s : Store) : list entry :=
  map (fun e => match e with
                | Kndr k => if filed_at h s (entry_key e) then Grad k else e
                | _ => e
                end) (chanIndex s).

(** Modelled from the spec: "move all kindergarten outputs filed at <=
    [height] to GRADUATED, remove them from the height index, remove the
    finalized sweep record for that height, and prune any channel whose
    last output is now graduated". As for [FetchClass], the outputs moved
    are those of the class of [height], which is the class the sweep
    transaction recorded for that height spends. *)
Definition GraduateKinder (h : Z) (s : Store) : Store :=
  let es := graduateEntries h s in
  let gone (p : Z * Key) : bool :=
    (fst p =? h) && existsb (is_kndr_at (snd p)) (chanIndex s) in
  mkStore (prune es)
          (filter (fun p => negb (gone p)) (heightIndex s))
          (remove_height h (finalized s))
          (lastGraduatedHeight s) (lastFinalizedHeight s).

(** Modelled from the spec: "persist the watermark: the highest block
    height for which graduation processing has completed". *)
Definition GraduateHeight (h : Z) (s : Store) : Store :=
  mkStore (chanIndex s) (heightIndex s) (finalized s)
          (Z.max (lastGraduatedHeight s) h) (lastFinalizedHeight s).

Definition LastGraduatedHeight (s : Store) : Z := lastGraduatedHeight s.

Definition LastFinalizedHeight (s : Store) : Z := lastFinalizedHeight s.

Definition FetchPreschools (s : Store) : list kidOutput :=
  flat_map (fun e => match e with Pscl k => [k] | _ => [] end) (chanIndex s).

Definition FetchCribs (s : Store) : list babyOutput :=
  flat_map (fun e => match e with Crib b => [b] | _ => [] end) (chanIndex s).

(** Insertion into an ascending list without repetition. *)
Fixpoint insert_height (h : Z) (l : list Z) : list Z :=
  match l with
  | [] => [h]
  | x :: l' => if h <? x then h :: l
               else if h =? x then l
               else x :: insert_height h l'
  end.

(** Modelled from the spec: "heights in the height index <= h, ascending". *)
Definition HeightsBelowOrEqual (h : Z) (s : Store) : list Z :=
  fold_right insert_height []
    (filter (fun x => x <=? h) (map fst (heightIndex s))).

Definition chan_outputs (cp : OutPoint) (s : Store) : list entry :=
  filter (fun e => OutPoint_eqb (entry_chan e) cp) (chanIndex s).

Fixpoint dedup_chans (l : list OutPoint) : list OutPoint :=
  match l with
  | [] => []
  | x :: l' => if existsb (OutPoint_eqb x) l' then dedup_chans l'
               else x :: dedup_chans l'
  end.

Definition ListChannels (s : Store) : list OutPoint :=
  dedup_chans (map entry_chan (chanIndex s)).

Definition RemoveChannel (cp : OutPoint) (s : Store) : Store :=
  mkStore (filter (fun e => negb (OutPoint_eqb (entry_chan e) cp))
                  (chanIndex s))
          (filter (fun p => negb (OutPoint_eqb (fst (snd p)) cp))
                  (heightIndex s))
          (finalized s) (lastGraduatedHeight s) (lastFinalizedHeight s).

End Store.

(* ================================================================== *)
(** * The nursery: intake, incubator, sweep pipeline, report *)
(* ================================================================== *)

Module Nursery.
Import Wire Store.

(** ** Resolutions handed over by the channel arbitrator *)

(** [lnwallet.OutgoingHtlcResolution], with the fields [createOutgoingRes]
    sets. [SignedTimeoutTx] is a pointer: nil on the remote commitment. *)
Record OutgoingHtlcResolution := mkOutgoingHtlcResolution
  { Expiry : Z;
    SignedTimeoutTx : option MsgTx;
    CsvDelay : Z;
    ClaimOutpoint : OutPoint;
    SweepSignDesc : SignDescriptor }.

(** [lnwallet.CommitOutputResolution], with the fields
    [createCommitmentRes] sets. *)
Record CommitOutputResolution := mkCommitOutputResolution
  { SelfOutPoint : OutPoint;
    SelfOutputSignDesc : SignDescriptor;
    MaturityDelay : Z }.

(** [lnwallet.IncomingHtlcResolution]: the tests hand over none; the fields
    are those of a direct claim. *)
Record IncomingHtlcResolution := mkIncomingHtlcResolution
  { InClaimOutpoint : OutPoint;
    InCsvDelay : Z;
    InSweepSignDesc : SignDescriptor }.

(** [MsgTx.TxHash] is the double SHA-256 of the serialization. The model
    names a transaction by the serialization itself, that is, it takes the
    hash to be injective. *)
Definition TxHash (tx : MsgTx) : list byte := Serialize tx.

(** The amount of an output is the value of the output its sign descriptor
    spends. *)
Definition sd_amount (sd : SignDescriptor) : Z :=
  match Output sd with
  | Some o => Value o
  | None => 0
  end.

(** ** Configuration ([NurseryConfig] and the sweeper's) *)

(** The external collaborators of section 6 the sweep pipeline calls: the
    script source, the fee estimator with its static fallback, the weight
    of a transaction and the signer. *)
Record NurseryConfig := mkNurseryConfig
  { GenSweepScript : list byte;
    EstimateFeePerKW : option Z;
    StaticFeePerKW : Z;
    txWeight : MsgTx -> Z;
    ComputeWitness : MsgTx -> kidOutput -> list (list byte) }.

(** The configuration of [createNurseryTestContext]: an empty sweep script,
    [lnwallet.StaticFeeEstimator{}] (rate zero) and [nurseryMockSigner],
    which returns empty signatures. *)
Definition testConfig : NurseryConfig :=
  mkNurseryConfig [] (Some 0) 0 (fun _ => 0) (fun _ _ => []).

(** ** State *)

(** What a goroutine waiting on a confirmation will do with it. *)
Inductive Ntfn :=
  | PreschoolConf (k : kidOutput)
  | TimeoutConf (b : babyOutput)
  | SweepConf (h : Z).

(** The calls [nurseryStoreInterceptor] reports on its channels. *)
Inductive Signal := cribToKinder | preschoolToKinder | graduateKinder.

(** The nursery with its surroundings in the test context:
    - [store]: the persistent store;
    - [confs]: the confirmation registrations of the running nursery, by
      txid, in the order they were made ([nurseryMockNotifier.confChannel]
      and the goroutines receiving from it); lost when the nursery stops;
    - [published]: what [PublishTransaction] has sent to [publishChan];
    - [signals]: what the store interceptor has sent and the test has not
      yet received. *)
Record State := mkState
  { store : Store;
    confs : list (list byte * Ntfn);
    published : list MsgTx;
    signals : list Signal }.

Definition with_store (n : State) (s : Store) : State :=
  mkState s (confs n) (published n) (signals n).

Definition signal (n : State) (sg : Signal) : State :=
  mkState (store n) (confs n) (published n) (signals n ++ [sg]).

Definition publish (tx : MsgTx) (n : State) : State :=
  mkState (store n) (confs n) (published n ++ [tx]) (signals n).

Definition ntfn_same (a b : Ntfn) : bool :=
  match a, b with
  | PreschoolConf k, PreschoolConf k' => key_eqb (kid_key k) (kid_key k')
  | TimeoutConf b, TimeoutConf b' =>
      key_eqb (kid_key (kid b)) (kid_key (kid b'))
  | SweepConf h, SweepConf h' => h =? h'
  | _, _ => false
  end.

Definition registered (nt : Ntfn) (n : State) : bool :=
  existsb (fun p => ntfn_same (snd p) nt) (confs n).

(** [RegisterConfirmationsNtfn] followed by the goroutine that waits on the
    event; an output already waited for is not waited for twice. *)
Definition registerConf (txid : list byte) (nt : Ntfn) (n : State) : State :=
  if registered nt n then n
  else mkState (store n) (confs n ++ [(txid, nt)]) (published n) (signals n).

(** ** Intake (section 4.4) *)

(** Modelled from the spec: [IncubateOutputs] is in [utxonursery.go], which
    is not among the sources. "Synchronously classifies each supplied
    resolution into a BabyOutput (local-commit outgoing HTLCs that carry a
    pre-signed timeout tx) or KidOutput (everything else)".
    - The kid of a baby is the output of the timeout transaction, locked by
      the resolution's CSV delay.
    - The kid of a remote-commit HTLC is the claim outpoint; the script
      locks it by CLTV and not by CSV (section 3, "CLTV/CSV per script"), so
      it carries no CSV delay: in [testNurseryOutgoingHtlcSuccessOnRemote]
      the output confirmed at 124 is swept at the epoch of height 125
      although the resolution has [CsvDelay] 2.
    - The kid of the commitment output is locked by [MaturityDelay]. *)
Definition makeKidOutput (op chanPoint : OutPoint) (csv : Z)
    (wt : WitnessType) (sd : SignDescriptor) : kidOutput :=
  mkKidOutput (sd_amount sd) op wt sd chanPoint csv 0.

Definition commitKid (chanPoint : OutPoint) (r : CommitOutputResolution)
  : kidOutput :=
  makeKidOutput (SelfOutPoint r) chanPoint (MaturityDelay r)
    CommitmentTimeLock (SelfOutputSignDesc r).

Definition outgoingBaby (chanPoint : OutPoint) (r : OutgoingHtlcResolution)
    (tx : MsgTx) : babyOutput :=
  mkBabyOutput
    (makeKidOutput (mkOutPoint (TxHash tx) 0) chanPoint (CsvDelay r)
       HtlcOfferedTimeoutSecondLevel (SweepSignDesc r))
    (Expiry r) tx.

Definition outgoingKid (chanPoint : OutPoint) (r : OutgoingHtlcResolution)
  : kidOutput :=
  makeKidOutput (ClaimOutpoint r) chanPoint 0 HtlcOfferedRemoteTimeout
    (SweepSignDesc r).

Definition incomingKid (chanPoint : OutPoint) (r : IncomingHtlcResolution)
  : kidOutput :=
  makeKidOutput (InClaimOutpoint r) chanPoint 0 HtlcAcceptedRemoteSuccess
    (InSweepSignDesc r).

Definition classifyBabies (chanPoint : OutPoint)
    (outgoing : list OutgoingHtlcResolution) : list babyOutput :=
  flat_map (fun r => match SignedTimeoutTx r with
                     | Some tx => [outgoingBaby chanPoint r tx]
                     | None => []
                     end) outgoing.

Definition classifyKids (chanPoint : OutPoint)
    (commitResolution : option CommitOutputResolution)
    (outgoing : list OutgoingHtlcResolution)
    (incoming : list IncomingHtlcResolution) : list kidOutput :=
  match commitResolution with
  | Some r => [commitKid chanPoint r]
  | None => []
  end
  ++ flat_map (fun r => match SignedTimeoutTx r with
                        | Some _ => []
                        | None => [outgoingKid chanPoint r]
                        end) outgoing
  ++ map (incomingKid chanPoint) incoming.

(** The confirmation a PRESCHOOL kid waits for is registered on the hash of
    its outpoint, taken as the txid of the commitment transaction: the tests
    confirm [ClaimOutpoint.Hash] and [SelfOutPoint.Hash]. *)
Definition registerPreschoolConf (n : State) (k : kidOutput) : State :=
  registerConf (Hash (outpoint k)) (PreschoolConf k) n.

(** Modelled from the spec: "A single atomic [Incubate] call is issued to
    the store. Returns only after the store commit completes." The kids then
    wait for their confirmation (the startup sequence "re-registers" it). *)
Definition IncubateOutputs (chanPoint : OutPoint)
    (commitResolution : option CommitOutputResolution)
    (outgoingHtlcs : list OutgoingHtlcResolution)
    (incomingHtlcs : list IncomingHtlcResolution)
    (broadcastHeight : Z) (n : State) : State :=
  let kids := classifyKids chanPoint commitResolution outgoingHtlcs
                incomingHtlcs in
  let babies := classifyBabies chanPoint outgoingHtlcs in
  let n1 := with_store n (Incubate kids babies (store n)) in
  fold_left registerPreschoolConf kids n1.

(** ** Sweep pipeline (section 4.3) *)

(** Broadcast the timeout transaction of a CRIB baby and wait for its
    confirmation, unless the running nursery already does. *)
Definition sweepCribOutput (n : State) (b : babyOutput) : State :=
  if registered (TimeoutConf b) n then n
  else registerConf (TxHash (timeoutTx b)) (TimeoutConf b)
         (publish (timeoutTx b) n).

Definition sum_amounts (kids : list kidOutput) : Z :=
  fold_right (fun k acc => amt k + acc) 0 kids.

Definition sweepFeeRate (cfg : NurseryConfig) : Z :=
  match EstimateFeePerKW cfg with
  | Some r => r
  | None => StaticFeePerKW cfg
  end.

(** Modelled from the spec: step 5 of [graduateClass]. "Inputs: every kid
    in [kids]. Single output: a fresh wallet-owned script obtained from
    [GenSweepScript]. Fee: [EstimateFeePerKW] multiplied by the tx weight;
    fall back to the Estimator's configured static rate on error. Sign each
    input through the external [Signer]." Each input carries the CSV delay
    of its kid as its sequence number. *)
Definition sweepInputs (kids : list kidOutput)
    (wit : kidOutput -> list (list byte)) : list TxIn :=
  map (fun k => mkTxIn (outpoint k) [] (wit k) (blocksToMaturity k)) kids.

Definition unsignedSweepTx (cfg : NurseryConfig) (kids : list kidOutput)
    (fee : Z) : MsgTx :=
  mkMsgTx 2 (sweepInputs kids (fun _ => []))
    [mkTxOut (sum_amounts kids - fee) (GenSweepScript cfg)] 0.

Definition buildSweepTx (cfg : NurseryConfig) (kids : list kidOutput)
  : MsgTx :=
  let fee := sweepFeeRate cfg * txWeight cfg (unsignedSweepTx cfg kids 0)
             / 1000 in
  let tx := unsignedSweepTx cfg kids fee in
  mkMsgTx (Version tx) (sweepInputs kids (ComputeWitness cfg tx))
    (TxOut_ tx) (LockTime tx).

(** Modelled from the spec: the algorithm of section 4.3. Fetch the class;
    rebroadcast its babies; return if there are no kids; reuse the
    finalized transaction if there is one, otherwise build one and persist
    it with [FinalizeKinder] before the broadcast; publish; wait for the
    confirmation that will call [GraduateKinder]. *)
Definition graduateClass (cfg : NurseryConfig) (n : State) (h : Z) : State :=
  let '(existingTx, kids, babies) := FetchClass h (store n) in
  let n1 := fold_left sweepCribOutput babies n in
  match kids with
  | [] => n1
  | _ :: _ =>
      let tx := match existingTx with
                | Some tx => tx
                | None => buildSweepTx cfg kids
                end in
      let n2 := match existingTx with
                | Some _ => n1
                | None => with_store n1 (FinalizeKinder h tx (store n1))
                end in
      registerConf (TxHash tx) (SweepConf h) (publish tx n2)
  end.

(** ** Incubator (section 4.2) *)

(** Modelled from the spec: the main loop on a block epoch at height [h].
    "1. For every CRIB baby with [expiry <= h] that has not yet been
    broadcast, broadcast its timeout tx and register a confirmation
    notification. 2. Drive [graduateClass(h)]. 3. Persist
    [GraduateHeight(h)]." Step 2 runs through the heights the height index
    holds at or below [h], in ascending order, one call per height. *)
Definition notifyEpoch (cfg : NurseryConfig) (h : Z) (n : State) : State :=
  let expired := filter (fun b => expiry b <=? h) (FetchCribs (store n)) in
  let n1 := fold_left sweepCribOutput expired n in
  let n2 := fold_left (graduateClass cfg)
              (HeightsBelowOrEqual h (store n1)) n1 in
  with_store n2 (GraduateHeight h (store n2)).

Definition with_confHeight (k : kidOutput) (c : Z) : kidOutput :=
  mkKidOutput (amt k) (outpoint k) (witnessType k) (signDesc k)
    (originChanPoint k) (blocksToMaturity k) c.

(** What the goroutine waiting on a confirmation does when it arrives at
    height [c]; each store call goes through the interceptor, which signals
    it. *)
Definition onConfirmed (nt : Ntfn) (c : Z) (n : State) : State :=
  match nt with
  | PreschoolConf k =>
      signal (with_store n (PreschoolToKinder (with_confHeight k c) (store n)))
        preschoolToKinder
  | TimeoutConf b =>
      signal (with_store n
                (CribToKinder
                   (mkBabyOutput (with_confHeight (kid b) c) (expiry b)
                      (timeoutTx b)) (store n)))
        cribToKinder
  | SweepConf h =>
      signal (with_store n (GraduateKinder h (store n))) graduateKinder
  end.

(** The first registration waiting on [txid], and the others. *)
Fixpoint take_conf (txid : list byte) (l : list (list byte * Ntfn))
  : option (Ntfn * list (list byte * Ntfn)) :=
  match l with
  | [] => None
  | (t, nt) :: l' =>
      if bytes_eqb t txid then Some (nt, l')
      else match take_conf txid l' with
           | Some (nt', rest) => Some (nt', (t, nt) :: rest)
           | None => None
           end
  end.

(** [nurseryMockNotifier.confirmTx]: one confirmation is sent on the channel
    of [txid]; it is an error ("confirmation not consumed") if nobody waits
    on it. *)
Definition confirmTx (txid : list byte) (height : Z) (n : State)
  : option State :=
  match take_conf txid (confs n) with
  | Some (nt, rest) =>
      Some (onConfirmed nt height
              (mkState (store n) rest (published n) (signals n)))
  | None => None
  end.

(** Modelled from the spec: the startup sequence of section 4.2, with the
    re-broadcast of section 5 ("re-broadcasts any finalized sweep tx that
    has not yet confirmed"). The best-known tip is the persisted watermark
    ("a restart is indistinguishable from a normal run that began at
    [LastGraduatedHeight]"). *)
Definition republish (n : State) (p : Z * MsgTx) : State :=
  registerConf (TxHash (snd p)) (SweepConf (fst p)) (publish (snd p) n).

Definition Start (n : State) : State :=
  let tip := LastGraduatedHeight (store n) in
  let n1 := fold_left registerPreschoolConf (FetchPreschools (store n)) n in
  let expired := filter (fun b => expiry b <=? tip) (FetchCribs (store n1)) in
  let n2 := fold_left sweepCribOutput expired n1 in
  fold_left republish (finalized (store n2)) n2.

(** [ctx.restart]'s action: [Stop], [newUtxoNursery] on the same
    configuration and store, [Start]. The goroutines and their
    registrations are gone; the store and what was published remain. *)
Definition restart (n : State) : State :=
  Start (mkState (store n) [] (published n) (signals n)).

(** [createNurseryTestContext]: a fresh store, a started nursery. *)
Definition newNursery : State := Start (mkState emptyStore [] [] []).

(** ** Report (section 4.4) *)

Record htlcMaturityReport := mkHtlcMaturityReport
  { r_outpoint : OutPoint;
    r_amount : Z;
    stage : Z;               (* uint32 *)
    r_maturityHeight : Z }.

Record contractMaturityReport := mkContractMaturityReport
  { limboBalance : Z;
    recoveredBalance : Z;
    htlcs : list htlcMaturityReport }.

Inductive Error := ErrContractNotFound.

Definition isHtlc (k : kidOutput) : bool :=
  match witnessType k with
  | CommitmentTimeLock => false
  | _ => true
  end.

Definition emptyReport : contractMaturityReport :=
  mkContractMaturityReport 0 0 [].

Definition addLimbo (r : contractMaturityReport) (a : Z) :=
  mkContractMaturityReport (limboBalance r + a) (recoveredBalance r) (htlcs r).

Definition addRecovered (r : contractMaturityReport) (a : Z) :=
  mkContractMaturityReport (limboBalance r) (recoveredBalance r + a) (htlcs r).

Definition addHtlc (r : contractMaturityReport) (k : kidOutput) (st m : Z) :=
  mkContractMaturityReport (limboBalance r) (recoveredBalance r)
    (htlcs r ++ [mkHtlcMaturityReport (outpoint k) (amt k) st m]).

(** Modelled from the spec: [NurseryReport] is in [utxonursery.go], which is
    not among the sources. Section 4.4: the limbo balance sums the
    non-graduated outputs, the recovered balance the graduated ones, and
    every HTLC has an entry with its stage, "1 = CRIB, 2 = KINDERGARTEN;
    PRESCHOOL is folded into stage 2". The commitment output has no entry
    ([assertNurseryReport] expects none for it). One case follows the test
    and not section 4.4: for an HTLC still in PRESCHOOL, [incubateTestOutput]
    records "Nursery is currently not reporting this limbo balance" and does
    not assert the report, so its amount is not added. *)
Definition reportEntry (r : contractMaturityReport) (e : entry)
  : contractMaturityReport :=
  match e with
  | Crib b => addHtlc (addLimbo r (amt (kid b))) (kid b) 1 (expiry b)
  | Pscl k =>
      if isHtlc k then addHtlc r k 2 0
      else addLimbo r (amt k)
  | Kndr k =>
      if isHtlc k then addHtlc (addLimbo r (amt k)) k 2 (maturityHeight k)
      else addLimbo r (amt k)
  | Grad k => addRecovered r (amt k)
  end.

(** [ForChanOutputs] fails with [ErrContractNotFound] for a channel without
    a record (section 4.4). *)
Definition ForChanOutputs (cp : OutPoint) (s : Store)
  : Error + list entry :=
  match chan_outputs cp s with
  | [] => inl ErrContractNotFound
  | es => inr es
  end.

Definition NurseryReport (chanPoint : OutPoint) (n : State)
  : Error + contractMaturityReport :=
  match ForChanOutputs chanPoint (store n) with
  | inl err => inl err
  | inr es => inr (fold_left reportEntry es emptyReport)
  end.

(** The limbo balance in the words of section 4.4: the "sum of amounts of
    non-graduated outputs" of the channel. *)
Definition limboBalance_spec (chanPoint : OutPoint) (s : Store) : Z :=
  fold_right (fun e acc => if is_grad e then acc
                           else amt (entry_kid e) + acc)
    0 (chan_outputs chanPoint s).

Definition recoveredBalance_spec (chanPoint : OutPoint) (s : Store) : Z :=
  fold_right (fun e acc => if is_grad e then amt (entry_kid e) + acc
                           else acc)
    0 (chan_outputs chanPoint s).

End Nursery.

(* ================================================================== *)
(** * The nursery tests ([utxonursery_test.go]) *)
(* ================================================================== *)

Module NurseryTest.
Import Wire Store Nursery.

(** [wire.OutPoint{}] and [&wire.MsgTx{}]: Go's zero values. *)
Definition zeroHash : list byte := repeat x00 HashSize.
Definition zeroOutPoint : OutPoint := mkOutPoint zeroHash 0.
Definition zeroMsgTx : MsgTx := mkMsgTx 0 [] [] 0.
Definition zeroSignDescriptor : SignDescriptor :=
  mkSignDescriptor None [] [] None 0.

Definition testChanPoint : OutPoint := zeroOutPoint.

Definition sweepSignDesc (value : Z) : SignDescriptor :=
  mkSignDescriptor None [] [] (Some (mkTxOut value [])) 0.

(** [createOutgoingRes]. *)
Definition closeTx : MsgTx := zeroMsgTx.

Definition htlcOp : OutPoint := mkOutPoint (TxHash closeTx) 0.

Definition signedTimeoutTx : MsgTx :=
  mkMsgTx 0 [mkTxIn htlcOp [] [[]] 0] [mkTxOut 0 []] 0.

Definition createOutgoingRes (onLocalCommitment : bool)
  : OutgoingHtlcResolution :=
  if onLocalCommitment then
    mkOutgoingHtlcResolution 125 (Some signedTimeoutTx) 2 zeroOutPoint
      (sweepSignDesc 10000)
  else
    mkOutgoingHtlcResolution 125 None 2 htlcOp (sweepSignDesc 10000).

(** [createCommitmentRes]. *)
Definition createCommitmentRes : CommitOutputResolution :=
  mkCommitOutputResolution zeroOutPoint (sweepSignDesc 10000) 2.

(** ** The test context

    A test runs against the nursery, counts the restart points it has
    passed ([currentStartStopIdx]) and the transactions it has taken from
    [publishChan]. A call of [t.Fatal] ends it. *)
Record TestCtx := mkTestCtx
  { nursery : State;
    received : nat;
    currentStartStopIdx : nat }.

Definition Test (A : Type) : Type := TestCtx -> option A * TestCtx.

Definition tret {A} (x : A) : Test A := fun c => (Some x, c).

Definition tbind {A B} (m : Test A) (f : A -> Test B) : Test B :=
  fun c => match m c with
           | (Some x, c') => f x c'
           | (None, c') => (None, c')
           end.

Definition Fatal {A} : Test A := fun c => (None, c).

Notation "x <-- m ;; k" := (tbind m (fun x => k))
  (at level 61, m at next level, right associativity).
Notation "m ;;; k" := (tbind m (fun _ => k))
  (at level 61, right associativity).

Definition onNursery (f : State -> State) : Test unit :=
  fun c => (Some tt, mkTestCtx (f (nursery c)) (received c)
                       (currentStartStopIdx c)).

(** [ctx.restart], through the [checkStartStop] of [testRestartLoop]: the
    restart is executed at the restart point whose number is [restartIdx]. *)
Definition ctx_restart (restartIdx : nat) : Test bool :=
  fun c =>
    let i := S (currentStartStopIdx c) in
    if Nat.eqb restartIdx i
    then (Some true, mkTestCtx (restart (nursery c)) (received c) i)
    else (Some false, mkTestCtx (nursery c) (received c) i).

(** [ctx.receiveTx]: the next transaction of [publishChan], or "tx not
    published". *)
Definition receiveTx : Test MsgTx :=
  fun c => match nth_error (published (nursery c)) (received c) with
           | Some tx => (Some tx, mkTestCtx (nursery c) (S (received c))
                                    (currentStartStopIdx c))
           | None => (None, c)
           end.

Definition t_confirmTx (txid : list byte) (height : Z) : Test unit :=
  fun c => match confirmTx txid height (nursery c) with
           | Some n => (Some tt, mkTestCtx n (received c)
                                   (currentStartStopIdx c))
           | None => (None, c)
           end.

(** The [select] on a channel of the store interceptor. *)
Definition expectSignal (sg : Signal) : Test unit :=
  fun c =>
    let n := nursery c in
    match signals n, sg with
    | cribToKinder :: rest, cribToKinder
    | preschoolToKinder :: rest, preschoolToKinder
    | graduateKinder :: rest, graduateKinder =>
        (Some tt, mkTestCtx (mkState (store n) (confs n) (published n) rest)
                    (received c) (currentStartStopIdx c))
    | _, _ => (None, c)
    end.

(** [createNurseryTestContext], which ends with an immediate restart. *)
Definition createNurseryTestContext (restartIdx : nat) : Test unit :=
  onNursery (fun _ => newNursery) ;;; _ <-- ctx_restart restartIdx ;; tret tt.

(** [assertNurseryReport]. *)
Definition assertNurseryReport (expectedNofHtlcs : nat)
    (expectedStage expectedLimboBalance : Z) : Test unit :=
  fun c =>
    match NurseryReport testChanPoint (nursery c) with
    | inl _ => (None, c)
    | inr report =>
        if negb (Nat.eqb (length (htlcs report)) expectedNofHtlcs)
        then (None, c)
        else if negb (Nat.eqb expectedNofHtlcs 0)
                && match htlcs report with
                   | htlcReport :: _ => negb (stage htlcReport =? expectedStage)
                   | [] => true
                   end
        then (None, c)
        else if negb (limboBalance report =? expectedLimboBalance)
        then (None, c)
        else (Some tt, c)
    end.

(** [assertNurseryReportUnavailable]. *)
Definition assertNurseryReportUnavailable : Test unit :=
  fun c => match NurseryReport testChanPoint (nursery c) with
           | inl ErrContractNotFound => (Some tt, c)
           | inr _ => (None, c)
           end.

(** [incubateTestOutput]: the report is asserted only for an output on the
    local commitment. *)
Definition incubateTestOutput (onLocalCommitment : bool)
  : Test OutgoingHtlcResolution :=
  let outgoingRes := createOutgoingRes onLocalCommitment in
  onNursery (IncubateOutputs testChanPoint None [outgoingRes] [] 0) ;;;
  let expectedStage := if onLocalCommitment then 1 else 2 in
  (if onLocalCommitment then assertNurseryReport 1 expectedStage 10000
   else tret tt) ;;;
  tret outgoingRes.

(** [ctx.finish]: a last restart point; no goroutine left blocked on an
    interceptor channel; nothing left in [publishChan]; no channel and no
    height left in the store. *)
Definition MaxUint32 : Z := 2 ^ 32 - 1.

Definition finish (restartIdx : nat) : Test unit :=
  _ <-- ctx_restart restartIdx ;;
  fun c =>
    let n := nursery c in
    match signals n with
    | _ :: _ => (None, c)
    | [] =>
        if negb (Nat.eqb (length (published n)) (received c)) then (None, c)
        else match ListChannels (store n) with
             | _ :: _ => (None, c)
             | [] => match HeightsBelowOrEqual MaxUint32 (store n) with
                     | _ :: _ => (None, c)
                     | [] => (Some tt, c)
                     end
             end
    end.

(** [testSweep]. *)
Definition testSweep (restartIdx : nat) (afterPublishAssert : Test unit)
  : Test unit :=
  sweepTx <-- receiveTx ;;
  r <-- ctx_restart restartIdx ;;
  sweepTx <-- (if r then receiveTx else tret sweepTx) ;;
  afterPublishAssert ;;;
  t_confirmTx (TxHash sweepTx) 129 ;;;
  expectSignal graduateKinder ;;;
  _ <-- ctx_restart restartIdx ;;
  assertNurseryReportUnavailable.

(** [testSweepHtlc]. *)
Definition testSweepHtlc (restartIdx : nat) : Test unit :=
  testSweep restartIdx (assertNurseryReport 1 2 10000).

Definition notifyEpoch_t (h : Z) : Test unit :=
  onNursery (notifyEpoch testConfig h).

(** [testNurseryOutgoingHtlcSuccessOnLocal]. *)
Definition testNurseryOutgoingHtlcSuccessOnLocal (restartIdx : nat)
  : Test unit :=
  createNurseryTestContext restartIdx ;;;
  outgoingRes <-- incubateTestOutput true ;;
  _ <-- ctx_restart restartIdx ;;
  notifyEpoch_t 125 ;;;
  _ <-- receiveTx ;;
  r <-- ctx_restart restartIdx ;;
  (if r then (_ <-- receiveTx ;; tret tt) else tret tt) ;;;
  match SignedTimeoutTx outgoingRes with
  | Some tx => t_confirmTx (TxHash tx) 126
  | None => Fatal
  end ;;;
  expectSignal cribToKinder ;;;
  _ <-- ctx_restart restartIdx ;;
  notifyEpoch_t 128 ;;;
  testSweepHtlc restartIdx ;;;
  finish restartIdx.

(** [testNurseryOutgoingHtlcSuccessOnRemote]. *)
Definition testNurseryOutgoingHtlcSuccessOnRemote (restartIdx : nat)
  : Test unit :=
  createNurseryTestContext restartIdx ;;;
  outgoingRes <-- incubateTestOutput false ;;
  _ <-- ctx_restart restartIdx ;;
  t_confirmTx (Hash (ClaimOutpoint outgoingRes)) 124 ;;;
  expectSignal preschoolToKinder ;;;
  _ <-- ctx_restart restartIdx ;;
  notifyEpoch_t 125 ;;;
  testSweepHtlc restartIdx ;;;
  finish restartIdx.

(** [testNurseryCommitSuccessOnLocal]. *)
Definition testNurseryCommitSuccessOnLocal (restartIdx : nat) : Test unit :=
  createNurseryTestContext restartIdx ;;;
  let commitRes := createCommitmentRes in
  onNursery (IncubateOutputs testChanPoint (Some commitRes) [] [] 0) ;;;
  assertNurseryReport 0 0 10000 ;;;
  _ <-- ctx_restart restartIdx ;;
  t_confirmTx (Hash (SelfOutPoint commitRes)) 124 ;;;
  expectSignal preschoolToKinder ;;;
  _ <-- ctx_restart restartIdx ;;
  notifyEpoch_t 126 ;;;
  testSweep restartIdx (assertNurseryReport 0 0 10000) ;;;
  finish restartIdx.

Definition initialCtx : TestCtx := mkTestCtx (mkState emptyStore [] [] []) 0 0.

Definition passes (r : option unit * TestCtx) : bool :=
  match fst r with Some _ => true | None => false end.

(** [testRestartLoop]: the test is run without a restart, then with the
    restart at its first restart point, its second, and so on, until a run
    has passed fewer restart points than the index asks for. The result
    lists whether each run passed. The loop is bounded by the number of
    runs allowed; [None] says the bound was too small. *)
Fixpoint testRestartLoop (test : nat -> Test unit) (runs : nat)
    (restartIdx : nat) : option (list bool) :=
  match runs with
  | O => None
  | S runs' =>
      let r := test restartIdx initialCtx in
      if Nat.eqb (currentStartStopIdx (snd r)) restartIdx
      then Some [passes r]
      else match testRestartLoop test runs' (S restartIdx) with
           | Some l => Some (passes r :: l)
           | None => None
           end
  end.


(** A test with one restart point and nothing else. *)
Definition oneRestartPoint (restartIdx : nat) : Test unit :=
  _ <-- ctx_restart restartIdx ;; tret tt.

End NurseryTest.

(* ================================================================== *)
(** * The chain registry ([chainregistry.go]) *)
(* ================================================================== *)

Module ChainRegistry.
Import Stdlib.Strings.String.
Import stdpp.base stdpp.option stdpp.countable stdpp.fin_maps stdpp.gmap.
Local Open Scope Z_scope.

(** [chainCode] is a [uint32]; the two constants are [iota] and its
    successor. *)
Definition bitcoinChain : Z := 0.
Definition monacoinChain : Z := 1.

(** [chainCode.String]. *)
Definition chainCode_String (c : Z) : string :=
  if c =? bitcoinChain then "bitcoin"
  else if c =? monacoinChain then "monacoin"
  else "kekcoin".

(** Genesis hashes are [chainhash.Hash] values, used as map keys. *)
#[export] Instance byte_eq_dec : EqDecision byte := Byte.byte_eq_dec.

#[export] Program Instance byte_countable : Countable byte :=
  inj_countable Byte.to_N Byte.of_N _.
Next Obligation. intro b. apply Byte.of_to_N. Qed.

Definition bitcoinTestnetGenesis : list byte :=
    [x43; x49; x7f; xd7; xf8; x26; x95; x71;
     x08; xf4; xa3; x0f; xd9; xce; xc3; xae;
     xba; x79; x97; x20; x84; xe9; x0e; xad;
     x01; xea; x33; x09; x00; x00; x00; x00].

Definition bitcoinMainnetGenesis : list byte :=
    [x6f; xe2; x8c; x0a; xb6; xf1; xb3; x72;
     xc1; xa6; xa2; x46; xae; x63; xf7; x4f;
     x93; x1e; x83; x65; xe1; x5a; x08; x9c;
     x68; xd6; x19; x00; x00; x00; x00; x00].

Definition monacoinTestnetGenesis : list byte :=
    [xb2; xe0; x61; x10; x32; x9c; x44; x8f;
     x15; x78; xe4; x8a; x25; xa8; x8b; x63;
     x9d; xcf; xaa; xa6; xa6; xb2; x97; xd0;
     xc6; xe0; x3b; xba; xce; x06; xb1; xa2].

Definition monacoinMainnetGenesis : list byte :=
    [xb6; x8b; x8c; x41; x0d; x2e; xa4; xaf;
     xd7; x4f; xb5; x6e; x37; x0b; xfc; x1b;
     xed; xf9; x29; xe1; x45; x38; x96; xc9;
     xe7; x9d; xd1; x16; x01; x1c; x9f; xff].

(** [chainMap]: genesis hash to chain code. *)
Definition chainMap : gmap (list byte) Z :=
  <[monacoinMainnetGenesis := monacoinChain]>
    (<[bitcoinMainnetGenesis := bitcoinChain]>
       (<[monacoinTestnetGenesis := monacoinChain]>
          (<[bitcoinTestnetGenesis := bitcoinChain]> ∅))).

(** [chainDNSSeeds]: genesis hash to the pairs of seed hosts. *)
Definition chainDNSSeeds : gmap (list byte) (list (string * string)) :=
  <[monacoinMainnetGenesis :=
      [("lnd.nodes.directory"%string, "soa.lnd.nodes.directory"%string)]]>
    (<[bitcoinTestnetGenesis :=
         [("test.nodes.lightning.directory"%string,
           "soa.nodes.lightning.directory"%string)]]>
       (<[bitcoinMainnetGenesis :=
            [("nodes.lightning.directory"%string,
              "soa.nodes.lightning.directory"%string)]]> ∅)).

Section Registry.

(** A [*chainControl] is a pointer the registry stores and hands back; it
    never looks inside. [nil] is the null pointer, [netParams] the
    [*bitcoinNetParams] of the second map. *)
Context {chainControl netParams : Type} (nil : chainControl).

(** [chainRegistry]; every method takes the lock for its whole body, so a
    method is one step on the record. *)
Record chainRegistry := mkChainRegistry
  { activeChains : gmap Z chainControl;
    netParams_ : gmap Z netParams;
    primaryChain : Z }.

(** [newChainRegistry]: two empty maps; [primaryChain] has the zero value. *)
Definition newChainRegistry : chainRegistry := mkChainRegistry ∅ ∅ 0.

(** [RegisterChain]. *)
Definition RegisterChain (newChain : Z) (cc : chainControl)
    (c : chainRegistry) : chainRegistry :=
  mkChainRegistry (<[newChain := cc]> (activeChains c)) (netParams_ c)
    (primaryChain c).

(** [LookupChain]: the comma-ok form of a map read gives the zero value
    [nil] and [false] for a missing key. *)
Definition LookupChain (targetChain : Z) (c : chainRegistry)
  : chainControl * bool :=
  match activeChains c !! targetChain with
  | Some cc => (cc, true)
  | None => (nil, false)
  end.

(** [LookupChainByHash]. *)
Definition LookupChainByHash (chainHash : list byte) (c : chainRegistry)
  : chainControl * bool :=
  match chainMap !! chainHash with
  | None => (nil, false)
  | Some targetChain => LookupChain targetChain c
  end.

(** [RegisterPrimaryChain]. *)
Definition RegisterPrimaryChain (cc : Z) (c : chainRegistry)
  : chainRegistry :=
  mkChainRegistry (activeChains c) (netParams_ c) cc.

(** [PrimaryChain]. *)
Definition PrimaryChain (c : chainRegistry) : Z := primaryChain c.

(** [ActiveChains]: the keys of [activeChains], in the order the map
    iteration yields them, which Go leaves unspecified. *)
Definition ActiveChains (c : chainRegistry) : list Z :=
  (map_to_list (activeChains c)).*1.

(** [NumActiveChains]: [uint32(len(c.activeChains))]. *)
Definition NumActiveChains (c : chainRegistry) : Z :=
  Z.of_nat (size (activeChains c)) mod 2 ^ 32.

End Registry.

End ChainRegistry.

(* ================================================================== *)
(** * [applyMonacoinParams] on shared parameter objects *)
(* ================================================================== *)

Module ParamsHeap.
Import Stdlib.Strings.String.
Import stdpp.base stdpp.option stdpp.countable stdpp.fin_maps stdpp.gmap
  stdpp.fin_sets stdpp.list.
Local Open Scope Z_scope.

(** [bitcoinNetParams] embeds a pointer, [*bitcoinCfg.Params]: a struct
    copy (such as [var activeNetParams = bitcoinTestNetParams]) shares the
    [chaincfg.Params] object with the original. The objects live in a heap
    indexed by address; so do the [chainhash.Hash] objects that
    [Params.GenesisHash] and [Checkpoint.Hash] point to. *)
Definition ptr : Type := nat.

(** [chaincfg.Checkpoint]. *)
Record Checkpoint := mkCheckpoint
  { cp_Height : Z;          (* int32 *)
    cp_Hash : ptr }.        (* *chainhash.Hash *)

Section Heap.

(** What [chaincfg.Params] holds besides the fields [applyMonacoinParams]
    names (genesis block, proof-of-work limits, deployments, ...). *)
Context {Rest : Type}.

(** [chaincfg.Params], the fields [applyMonacoinParams] assigns and the
    rest. *)
Record Params := mkParams
  { Name : string;
    Net : Z;                        (* wire.BitcoinNet, uint32 *)
    DefaultPort : string;
    CoinbaseMaturity : Z;           (* uint16 *)
    GenesisHash : ptr;              (* *chainhash.Hash *)
    PubKeyHashAddrID : byte;
    ScriptHashAddrID : byte;
    PrivateKeyID : byte;
    WitnessPubKeyHashAddrID : byte;
    WitnessScriptHashAddrID : byte;
    Bech32HRPSegwit : string;
    HDPrivateKeyID : list byte;     (* [4]byte *)
    HDPublicKeyID : list byte;      (* [4]byte *)
    HDCoinType : Z;                 (* uint32 *)
    Checkpoints : list Checkpoint;
    rest : Rest }.

Record bitcoinNetParams := mkBitcoinNetParams
  { b_Params : ptr; b_rpcPort : string; b_CoinType : Z }.

Record monacoinNetParams := mkMonacoinNetParams
  { m_Params : ptr; m_rpcPort : string; m_CoinType : Z }.

(** The heap: the [bitcoinCfg.Params] and [monacoinCfg.Params] objects and
    the hash objects of each package. A pointer that is nil or dangling has
    no cell. *)
Record Heap := mkHeap
  { bparams : gmap ptr Params;
    bhashes : gmap ptr (list byte);
    mparams : gmap ptr Params;
    mhashes : gmap ptr (list byte) }.

(** The built-in [copy]: the first [min (len dst) (len src)] elements of
    [dst] are overwritten. *)
Definition copy (dst src : list byte) : list byte :=
  take (List.length dst) src ++ drop (List.length src) dst.

Definition zeroHash : list byte := replicate 32 x00.

(** One iteration of the checkpoint loop: a new [chainhash.Hash] variable
    (a fresh object, since its address escapes), filled by [copy], and a
    checkpoint pointing to it. *)
Definition convertCheckpoint (acc : option (gmap ptr (list byte)
                                             * list Checkpoint))
    (mh : gmap ptr (list byte)) (c : Checkpoint)
  : option (gmap ptr (list byte) * list Checkpoint) :=
  '(bh, cps) ← acc;
  src ← mh !! cp_Hash c;
  let a := fresh (dom bh) in
  Some (<[a := copy zeroHash src]> bh, cps ++ [mkCheckpoint (cp_Height c) a]).

Definition convertCheckpoints (bh : gmap ptr (list byte))
    (mh : gmap ptr (list byte)) (cs : list Checkpoint)
  : option (gmap ptr (list byte) * list Checkpoint) :=
  foldl (fun acc c => convertCheckpoint acc mh c) (Some (bh, [])) cs.

(** [BitcoinNet(x)] of a [uint32]. *)
Definition BitcoinNet (x : Z) : Z := x mod 2 ^ 32.

(** [applyMonacoinParams]. The assignments to promoted fields go through
    the embedded pointer into the shared [chaincfg.Params] object;
    [rpcPort] and [CoinType] are fields of the struct itself. Dereferencing
    a pointer without a cell panics ([None]). *)
Definition applyMonacoinParams (h : Heap) (params : bitcoinNetParams)
    (monacoinParams : monacoinNetParams) : option (Heap * bitcoinNetParams) :=
  P ← bparams h !! b_Params params;
  M ← mparams h !! m_Params monacoinParams;
  dst ← bhashes h !! GenesisHash P;
  src ← mhashes h !! GenesisHash M;
  let bh1 := <[GenesisHash P := copy dst src]> (bhashes h) in
  '(bh2, checkPoints) ← convertCheckpoints bh1 (mhashes h) (Checkpoints M);
  let P' :=
    mkParams (Name M) (BitcoinNet (Net M)) (DefaultPort M)
      (CoinbaseMaturity M) (GenesisHash P)
      (PubKeyHashAddrID M) (ScriptHashAddrID M) (PrivateKeyID M)
      (WitnessPubKeyHashAddrID M) (WitnessScriptHashAddrID M)
      (Bech32HRPSegwit M)
      (copy (HDPrivateKeyID P) (HDPrivateKeyID M))
      (copy (HDPublicKeyID P) (HDPublicKeyID M))
      (HDCoinType M) checkPoints (rest P) in
  Some (mkHeap (<[b_Params params := P']> (bparams h)) bh2
               (mparams h) (mhashes h),
        mkBitcoinNetParams (b_Params params) (m_rpcPort monacoinParams)
          (m_CoinType monacoinParams)).

(** [isTestnet], reading [params.Params.Net] through the pointer. *)
Definition isTestnet (h : Heap) (params : bitcoinNetParams) : option bool :=
  P ← bparams h !! b_Params params;
  Some (if Net P =? ChainParams.bitcoinWire.TestNet3 then true
        else if Net P
                =? ChainParams.BitcoinNet ChainParams.monacoinWire.TestNet4
        then true
        else false).

End Heap.

(** An example heap: the test network parameters of Bitcoin at address 1,
    with their genesis hash at 10 and the hash of one checkpoint at 11; the
    main network parameters of Monacoin at address 2, with their genesis
    hash at 20 and the hashes of two checkpoints at 21 and 22. *)
Definition exBitcoinParams : @Params unit :=
  mkParams "testnet3" ChainParams.bitcoinWire.TestNet3 "18333" 100 10%nat
    x6f xc4 xef x03 x28 "tb" [x04; x35; x83; x94] [x04; x35; x87; xcf] 1
    [mkCheckpoint 546 11%nat] tt.

Definition exMonacoinParams : @Params unit :=
  mkParams "mainnet" ChainParams.monacoinWire.MainNet "9401" 100 20%nat
    x32 x37 xb0 x06 x0a "mona" [x04; x88; xad; xe4] [x04; x88; xb2; x1e] 22
    [mkCheckpoint 1500 21%nat; mkCheckpoint 4000 22%nat] tt.

Definition exHeap : @Heap unit :=
  mkHeap
    (<[1%nat := exBitcoinParams]> ∅)
    (<[10%nat := ChainRegistry.bitcoinTestnetGenesis]>
       (<[11%nat := replicate 32 x11]> ∅))
    (<[2%nat := exMonacoinParams]> ∅)
    (<[20%nat := ChainRegistry.monacoinMainnetGenesis]>
       (<[21%nat := replicate 32 x21]> (<[22%nat := replicate 32 x22]> ∅))).

(** [bitcoinTestNetParams], its copy [activeNetParams] (the declaration
    [var activeNetParams = bitcoinTestNetParams]) and
    [monacoinMainNetParams]. *)
Definition exBitcoinTestNetParams : bitcoinNetParams :=
  mkBitcoinNetParams 1%nat "18334" ChainParams.CoinTypeTestnet.

Definition exActiveNetParams : bitcoinNetParams := exBitcoinTestNetParams.

Definition exMonacoinMainNetParams : monacoinNetParams :=
  mkMonacoinNetParams 2%nat "9400" ChainParams.CoinTypeMonacoin.

End ParamsHeap.

(* ================================================================== *)
(** * The mock notifier of the nursery tests *)
(* ================================================================== *)

Module MockNotifier.
Import stdpp.base stdpp.option stdpp.countable stdpp.fin_maps stdpp.gmap.
Import ChainRegistry.

(** A channel is known by its identity: [make(chan ...)] yields a channel
    that is none of those made before. Identities are numbered in the order
    of creation. *)
Definition chan : Type := nat.

(** [nurseryMockNotifier]: the map from txid to confirmation channel, the
    epoch channel, the spend channel; [made] counts the channels made so
    far. The methods that touch the map hold the mutex for their whole
    body. *)
Record nurseryMockNotifier := mkNotifier
  { confChannel : gmap (list byte) chan;
    epochChan : chan;
    spendChan : chan;
    made : nat }.

(** [newNurseryMockNotifier]: an empty map and two new channels. *)
Definition newNurseryMockNotifier : nurseryMockNotifier :=
  mkNotifier ∅ 0%nat 1%nat 2%nat.

(** [getConfChannel]: the channel of the txid, made on first use. *)
Definition getConfChannel (txid : list byte) (m : nurseryMockNotifier)
  : chan * nurseryMockNotifier :=
  match confChannel m !! txid with
  | Some channel => (channel, m)
  | None =>
      let channel := made m in
      (channel,
       mkNotifier (<[txid := channel]> (confChannel m)) (epochChan m)
         (spendChan m) (S (made m)))
  end.

(** [RegisterConfirmationsNtfn]: the [Confirmed] channel of the event
    returned; script, number of confirmations and height hint are not
    looked at. *)
Definition RegisterConfirmationsNtfn (txid : list byte)
    (numConfs heightHint : Z) (m : nurseryMockNotifier)
  : chan * nurseryMockNotifier :=
  getConfChannel txid m.

(** The channel [confirmTx] sends the confirmation on. *)
Definition confirmTx_channel (txid : list byte) (m : nurseryMockNotifier)
  : chan * nurseryMockNotifier :=
  getConfChannel txid m.

(** [RegisterBlockEpochNtfn] and [RegisterSpendNtfn]: the [Epochs] and the
    [Spend] channel of the event returned. *)
Definition RegisterBlockEpochNtfn (m : nurseryMockNotifier) : chan :=
  epochChan m.

Definition RegisterSpendNtfn (outpoint : Wire.OutPoint) (heightHint : Z)
    (m : nurseryMockNotifier) : chan :=
  spendChan m.

(** The notifiers a test can bring about: the new one, and what calls of
    [getConfChannel] (through a registration or a confirmation) make of
    it. *)
Inductive reachable : nurseryMockNotifier -> Prop :=
  | reachable_new : reachable newNurseryMockNotifier
  | reachable_get txid m :
      reachable m -> reachable (snd (getConfChannel txid m)).

(** Every channel of the map was made after the epoch and spend channels
    and before the next one to be made; no two txids share one. *)
Definition channels_ok (m : nurseryMockNotifier) : Prop :=
  epochChan m = 0%nat /\ spendChan m = 1%nat /\ (2 <= made m)%nat
  /\ (forall txid ch, confChannel m !! txid = Some ch ->
                      (2 <= ch < made m)%nat)
  /\ (forall t1 t2 ch, confChannel m !! t1 = Some ch ->
                       confChannel m !! t2 = Some ch -> t1 = t2).

End MockNotifier.

(* ================================================================== *)
(** * The address of the chain backend ([newChainControlFromConfig]) *)
(* ================================================================== *)

Module BackendHost.
Import Stdlib.Strings.String Stdlib.Strings.Ascii.
Local Open Scope Z_scope.

(** [strings.Contains]. *)
Definition strings_Contains (s substr : string) : bool :=
  match index 0 substr s with
  | Some _ => true
  | None => false
  end.

(** [strconv.Atoi]: an optional sign and one or more decimal digits, the
    value within the 64-bit [int]; anything else is an error ([None]). *)
Definition is_digit (c : ascii) : bool :=
  let n := nat_of_ascii c in (48 <=? n)%nat && (n <=? 57)%nat.

Fixpoint digits_value (acc : Z) (s : string) : option Z :=
  match s with
  | EmptyString => Some acc
  | String c s' =>
      if is_digit c
      then digits_value (acc * 10 + Z.of_nat (nat_of_ascii c - 48)) s'
      else None
  end.

Definition Atoi (s : string) : option Z :=
  match s with
  | EmptyString => None
  | String c s' =>
      let neg := Ascii.eqb c "-" in
      let body := if neg || Ascii.eqb c "+" then s' else s in
      match body with
      | EmptyString => None
      | _ =>
          match digits_value 0 body with
          | None => None
          | Some n =>
              let v := if neg then - n else n in
              if (- 2 ^ 63 <=? v) && (v <? 2 ^ 63) then Some v else None
          end
      end
  end.

(** The verb [%d] of [fmt.Sprintf] on an [int]. *)
Definition Itoa (z : Z) : string :=
  DecimalString.NilZero.string_of_int (Z.to_int z).

(** Subtraction on the 64-bit [int]. *)
Definition int_sub (a b : Z) : Z := (a - b + 2 ^ 63) mod 2 ^ 64 - 2 ^ 63.

(** What the computation of the address ends in: the address, the error
    of [strconv.Atoi] returned to the caller, or the dereference of the nil
    mode pointer that is left when neither chain is active. *)
Inductive result :=
  | Host (s : string)
  | Error
  | Panic.

(** The [switch] that picks [cfg.BitcoindMode] or [cfg.MonacoindMode]
    ([cfg.BtcdMode] or [cfg.MonadMode]); the mode is represented by its
    [RPCHost]. Without an active chain the pointer stays nil. *)
Definition pickMode (bitcoinActive monacoinActive : bool)
    (bitcoinMode monacoinMode : string) : option string :=
  if bitcoinActive then Some bitcoinMode
  else if monacoinActive then Some monacoinMode
  else None.

(** The address of bitcoind or monacoind (the case ["bitcoind",
    "monacoind"] of [newChainControlFromConfig]), from the flags of the two
    chains, the RPC hosts of the two modes, [activeNetParams.rpcPort] and
    the outcome of the probing [net.Dial]: a host that names a port is
    used as it is; otherwise the port is the RPC port of the parameters
    less two, and on Bitcoin's regtest 18443 if nothing answers there. *)
Definition bitcoindHost (bitcoinActive bitcoinRegTest monacoinActive : bool)
    (bitcoindRPCHost monacoindRPCHost rpcPort : string)
    (dial : string -> bool) : result :=
  match pickMode bitcoinActive monacoinActive bitcoindRPCHost
          monacoindRPCHost with
  | None => Panic
  | Some RPCHost =>
      if strings_Contains RPCHost ":" then Host RPCHost
      else
        match Atoi rpcPort with
        | None => Error
        | Some port =>
            let port := int_sub port 2 in
            let bitcoindHost := (RPCHost ++ ":" ++ Itoa port)%string in
            if bitcoinActive && bitcoinRegTest then
              if dial bitcoindHost then Host bitcoindHost
              else Host (RPCHost ++ ":" ++ Itoa 18443)%string
            else Host bitcoindHost
        end
  end.

(** The address of btcd or monad (the case ["btcd", "monad"]): the host as
    it is if it names a port, otherwise with the RPC port of the
    parameters. *)
Definition btcdHost (bitcoinActive monacoinActive : bool)
    (btcdRPCHost monadRPCHost rpcPort : string) : result :=
  match pickMode bitcoinActive monacoinActive btcdRPCHost monadRPCHost with
  | None => Panic
  | Some RPCHost =>
      if strings_Contains RPCHost ":" then Host RPCHost
      else Host (RPCHost ++ ":" ++ rpcPort)%string
  end.

(** The RPC ports of the parameter sets of [chainparams.go], in the order
    of their declaration. *)
Definition rpcPorts : list string :=
  ["18334"; "8334"; "18556"; "19400"; "9400"; "18334"]%string.

End BackendHost.

(* ================================================================== *)
(** * Theorems *)
(* ================================================================== *)

Module WireFacts.
Import Wire.

Lemma Z_of_byte_of_Z n : Z_of_byte (byte_of_Z n) = n mod 256.
Proof.
  unfold Z_of_byte, byte_of_Z.
  assert (Hn : 0 <= n mod 256 < 256) by (apply Z.mod_pos_bound; lia).
  destruct (Byte.of_N (Z.to_N (n mod 256))) as [b|] eqn:E.
  - apply Byte.to_of_N in E. rewrite E. lia.
  - apply Byte.of_N_None_iff in E. lia.
Qed.

Lemma be_put_length k : forall n, length (be_put k n) = k.
Proof.
  induction k as [|k IH]; intro n; simpl; [reflexivity|].
  rewrite length_app, IH. simpl. lia.
Qed.

Lemma be_val_snoc bs b : be_val (bs ++ [b]) = be_val bs * 256 + Z_of_byte b.
Proof. unfold be_val. rewrite fold_left_app. reflexivity. Qed.

Lemma be_val_put k : forall n, 0 <= n < 256 ^ Z.of_nat k -> be_val (be_put k n) = n.
Proof.
  induction k as [|k IH]; intros n Hn.
  - simpl in *. unfold be_val. simpl. lia.
  - cbn [be_put]. rewrite be_val_snoc, Z_of_byte_of_Z, IH.
    + pose proof (Z.div_mod n 256). lia.
    + rewrite Nat2Z.inj_succ, Z.pow_succ_r in Hn by lia.
      split; [apply Z.div_pos; lia | apply Z.div_lt_upper_bound; lia].
Qed.

Lemma take_app (a rest : list byte) k :
  length a = k -> take k (a ++ rest) = Some (a, rest).
Proof.
  intros <-. unfold take.
  destruct (Nat.ltb_spec (length (a ++ rest)) (length a)) as [H|H].
  - rewrite length_app in H. lia.
  - rewrite firstn_app, Nat.sub_diag, firstn_all, firstn_O, app_nil_r.
    rewrite skipn_app, Nat.sub_diag, skipn_all. reflexivity.
Qed.

Lemma get_uint_put k n rest :
  0 <= n < 256 ^ Z.of_nat k -> get_uint k (be_put k n ++ rest) = Some (n, rest).
Proof.
  intro Hn. unfold get_uint, bind.
  rewrite take_app by apply be_put_length.
  unfold ret. rewrite be_val_put by assumption. reflexivity.
Qed.

Lemma get_uint32_put n rest :
  uint32_ok n -> get_uint 4 (be_put 4 n ++ rest) = Some (n, rest).
Proof. intro H. apply get_uint_put. exact H. Qed.

Lemma get_int64_put v rest :
  int64_ok v -> get_int64 (put_int64 v ++ rest) = Some (v, rest).
Proof.
  intro Hv. unfold get_int64, put_int64, bind, int64_ok in *.
  assert (Hm : 0 <= v mod 2 ^ 64 < 2 ^ 64) by (apply Z.mod_pos_bound; lia).
  rewrite get_uint_put by (change (256 ^ Z.of_nat 8) with (2 ^ 64); exact Hm).
  unfold ret. f_equal. f_equal.
  destruct (Z.ltb_spec (v mod 2 ^ 64) (2 ^ 63)) as [H|H].
  - destruct (Z_lt_le_dec v 0) as [Hneg|Hpos].
    + rewrite <- (Z.mod_add v 1 (2 ^ 64)) in H by lia.
      rewrite Z.mod_small in H by lia. lia.
    + rewrite Z.mod_small by lia. reflexivity.
  - destruct (Z_lt_le_dec v 0) as [Hneg|Hpos].
    + rewrite <- (Z.mod_add v 1 (2 ^ 64)) by lia.
      rewrite Z.mod_small by lia. lia.
    + rewrite Z.mod_small in H by lia. lia.
Qed.

Lemma get_bytes_put bs rest :
  bytes_ok bs -> get_bytes (put_bytes bs ++ rest) = Some (bs, rest).
Proof.
  intro H. unfold get_bytes, put_bytes, bind, bytes_ok in *.
  rewrite <- app_assoc.
  rewrite get_uint_put by (change (256 ^ Z.of_nat 4) with (2 ^ 32); lia).
  apply take_app. lia.
Qed.

Lemma get_many_put {A} (r : Reader A) (put : A -> list byte) (ok : A -> Prop) :
  inverts r put ok ->
  forall xs rest, Forall ok xs ->
    get_many r (length xs) (concat (map put xs) ++ rest) = Some (xs, rest).
Proof.
  intros Hr xs. induction xs as [|x xs IH]; intros rest Hok.
  - reflexivity.
  - inversion Hok; subst. cbn [length map concat get_many]. unfold bind.
    rewrite <- app_assoc, Hr by assumption.
    rewrite IH by assumption. reflexivity.
Qed.

Lemma get_list_put {A} (r : Reader A) (put : A -> list byte) (ok : A -> Prop) :
  inverts r put ok ->
  forall xs rest, Forall ok xs -> Z.of_nat (length xs) < 2 ^ 32 ->
    get_list r (put_list put xs ++ rest) = Some (xs, rest).
Proof.
  intros Hr xs rest Hok Hlen. unfold get_list, put_list, bind.
  rewrite <- app_assoc.
  rewrite get_uint_put by (change (256 ^ Z.of_nat 4) with (2 ^ 32); lia).
  rewrite Nat2Z.id. eapply get_many_put; eassumption.
Qed.

Lemma get_opt_put {A} (r : Reader A) (put : A -> list byte) (ok : A -> Prop) :
  inverts r put ok ->
  forall o rest, opt_ok ok o ->
    get_opt r (put_opt put o ++ rest) = Some (o, rest).
Proof.
  intros Hr [x|] rest Hok; unfold get_opt, bind; cbn [put_opt opt_ok] in *.
  - change ((x01 :: put x) ++ rest) with (be_put 1 1 ++ (put x ++ rest)).
    rewrite get_uint_put by (cbn; lia). cbn [Z.eqb Pos.eqb].
    rewrite Hr by assumption. reflexivity.
  - change ([x00] ++ rest) with (be_put 1 0 ++ rest).
    rewrite get_uint_put by (cbn; lia). reflexivity.
Qed.

Ltac reader_step :=
  first
    [ rewrite get_uint32_put by assumption
    | rewrite get_int64_put by assumption
    | rewrite get_bytes_put by assumption ].

Lemma readOutpoint_write : inverts readOutpoint writeOutpoint OutPoint_ok.
Proof.
  intros [h i] rest [Hh Hi]. unfold readOutpoint, writeOutpoint, bind.
  cbn [Hash Index] in *. rewrite <- app_assoc.
  rewrite take_app by assumption. reader_step. reflexivity.
Qed.

Lemma readTxOut_write : inverts readTxOut writeTxOut TxOut_ok.
Proof.
  intros [v s] rest [Hv Hs]. unfold readTxOut, writeTxOut, bind.
  cbn [Value PkScript] in *. rewrite <- app_assoc.
  do 2 reader_step. reflexivity.
Qed.

Lemma get_bytes_inverts : inverts get_bytes put_bytes bytes_ok.
Proof. intros bs rest H. apply get_bytes_put. exact H. Qed.

Lemma readTxIn_write : inverts readTxIn writeTxIn TxIn_ok.
Proof.
  intros [o s w q] rest (Ho & Hs & Hw & Hlen & Hq).
  unfold readTxIn, writeTxIn, bind.
  cbn [PreviousOutPoint SignatureScript Witness Sequence] in *.
  repeat rewrite <- app_assoc.
  rewrite readOutpoint_write by assumption. reader_step.
  rewrite (get_list_put _ _ _ get_bytes_inverts) by assumption.
  reader_step. reflexivity.
Qed.

Lemma int32_wrap v :
  int32_ok v ->
  (if v mod 2 ^ 32 <? 2 ^ 31 then v mod 2 ^ 32 else v mod 2 ^ 32 - 2 ^ 32) = v.
Proof.
  unfold int32_ok. intro Hv.
  destruct (Z_lt_le_dec v 0) as [Hneg|Hpos].
  - rewrite <- (Z.mod_add v 1 (2 ^ 32)) by lia.
    rewrite Z.mod_small by lia.
    destruct (Z.ltb_spec (v + 1 * 2 ^ 32) (2 ^ 31)); lia.
  - rewrite Z.mod_small by lia.
    destruct (Z.ltb_spec v (2 ^ 31)); lia.
Qed.

Lemma Deserialize_Serialize :
  inverts Deserialize Serialize
    (fun tx => int32_ok (Version tx)
               /\ Forall TxIn_ok (TxIn_ tx)
               /\ Z.of_nat (length (TxIn_ tx)) < 2 ^ 32
               /\ Forall TxOut_ok (TxOut_ tx)
               /\ Z.of_nat (length (TxOut_ tx)) < 2 ^ 32
               /\ uint32_ok (LockTime tx)).
Proof.
  intros [v ins outs l] rest (Hv & Hins & Hlin & Houts & Hlout & Hl).
  unfold Deserialize, Serialize, bind. cbn [Version TxIn_ TxOut_ LockTime] in *.
  repeat rewrite <- app_assoc.
  rewrite get_uint_put
    by (change (256 ^ Z.of_nat 4) with (2 ^ 32); apply Z.mod_pos_bound; lia).
  rewrite (get_list_put _ _ _ readTxIn_write) by assumption.
  rewrite (get_list_put _ _ _ readTxOut_write) by assumption.
  reader_step. unfold ret. rewrite int32_wrap by assumption. reflexivity.
Qed.

Lemma ReadSignDescriptor_Write :
  inverts ReadSignDescriptor WriteSignDescriptor SignDescriptor_ok.
Proof.
  intros [pk st ws o ht] rest (Hpk & Hst & Hws & Ho & Hht).
  unfold ReadSignDescriptor, WriteSignDescriptor, bind.
  cbn [PubKey SingleTweak WitnessScript Output HashType] in *.
  repeat rewrite <- app_assoc.
  rewrite (get_opt_put _ _ _ get_bytes_inverts) by assumption.
  do 2 reader_step.
  rewrite (get_opt_put _ _ _ readTxOut_write) by assumption.
  reader_step. reflexivity.
Qed.

Lemma witnessType_of_code_code w :
  witnessType_of_code (witnessType_code w) = Some w.
Proof. destruct w; reflexivity. Qed.

Lemma readWitnessType_put w rest :
  readWitnessType (be_put 2 (witnessType_code w) ++ rest) = Some (w, rest).
Proof.
  unfold readWitnessType, bind.
  rewrite get_uint_put
    by (change (256 ^ Z.of_nat 2) with 65536;
        destruct w; unfold witnessType_code; lia).
  rewrite witnessType_of_code_code. reflexivity.
Qed.

Lemma readVersion_put rest :
  readVersion (be_put 1 recordVersion ++ rest) = Some (tt, rest).
Proof.
  unfold readVersion, bind.
  rewrite get_uint_put by (unfold recordVersion; cbn; lia).
  rewrite Z.eqb_refl. reflexivity.
Qed.

Lemma readKidBody_body k rest :
  kidOutput_ok k -> readKidBody (kidBody k ++ rest) = Some (k, rest).
Proof.
  destruct k as [a op wt sd ocp btm ch].
  intros (Ha & Hop & Hsd & Hbtm & Hch & Hocp & _).
  unfold readKidBody, kidBody, bind.
  cbn [amt outpoint witnessType signDesc originChanPoint blocksToMaturity
       confHeight] in *.
  repeat rewrite <- app_assoc.
  rewrite readVersion_put. reader_step.
  rewrite readOutpoint_write by assumption.
  rewrite readWitnessType_put.
  rewrite ReadSignDescriptor_Write by assumption.
  do 2 reader_step.
  rewrite readOutpoint_write by assumption. reflexivity.
Qed.

Lemma readBlob_put {A} (r : Reader A) (body : A -> list byte)
    (ok : A -> Prop) :
  (forall x, ok x -> r (body x) = Some (x, []) /\ bytes_ok (body x)) ->
  inverts (readBlob r) (fun x => put_bytes (body x)) ok.
Proof.
  intros H x rest Hx. destruct (H x Hx) as [Hr Hb].
  unfold readBlob, bind. rewrite get_bytes_put by assumption.
  rewrite Hr. reflexivity.
Qed.

Lemma kidDecode_Encode : inverts kidDecode kidEncode kidOutput_ok.
Proof.
  apply readBlob_put. intros k Hk. split.
  - rewrite <- (app_nil_r (kidBody k)). apply readKidBody_body. exact Hk.
  - apply Hk.
Qed.

Lemma readBabyBody_body b rest :
  babyOutput_ok b -> readBabyBody (babyBody b ++ rest) = Some (b, rest).
Proof.
  destruct b as [k e tx]. intros (Hk & He & Htx & _).
  unfold readBabyBody, babyBody, bind. cbn [kid expiry timeoutTx] in *.
  repeat rewrite <- app_assoc.
  rewrite readVersion_put. reader_step.
  rewrite (readBlob_put Deserialize Serialize MsgTx_ok).
  - rewrite kidDecode_Encode by assumption. reflexivity.
  - intros t (Hv & Hins & Hlin & Houts & Hlout & Hl & Hser). split; [|exact Hser].
    rewrite <- (app_nil_r (Serialize t)). apply Deserialize_Serialize.
    repeat split; assumption || apply Hv || apply Hl.
  - exact Htx.
Qed.

Lemma babyDecode_Encode : inverts babyDecode babyEncode babyOutput_ok.
Proof.
  apply readBlob_put. intros b Hb. split.
  - rewrite <- (app_nil_r (babyBody b)). apply readBabyBody_body. exact Hb.
  - apply Hb.
Qed.

End WireFacts.

Module ChainParamsFacts.
Import ChainParams.

(** C10. [isTestnet] answers [true] exactly for a network magic equal to
    Bitcoin's [TestNet3] or to Monacoin's [TestNet4] converted to a
    [BitcoinNet]; it answers [false] for the main, simulation and regression
    networks of both chains, and [true] for the two test networks. *)
Theorem isTestnet_iff_testnet_magic :
  (forall params : bitcoinNetParams,
      isTestnet params = true <->
      Net (bParams params) = bitcoinWire.TestNet3
      \/ Net (bParams params) = BitcoinNet monacoinWire.TestNet4)
  /\ isTestnet bitcoinMainNetParams = false
  /\ isTestnet bitcoinSimNetParams = false
  /\ isTestnet regTestNetParams = false
  /\ (forall p, isTestnet (applyMonacoinParams p monacoinMainNetParams) = false)
  /\ (forall p, isTestnet (applyMonacoinParams p monacoinSimNetParams) = false)
  /\ (forall p,
        isTestnet (applyMonacoinParams p monacoinRegTestNetParams) = false)
  /\ isTestnet bitcoinTestNetParams = true
  /\ (forall p, isTestnet (applyMonacoinParams p monacoinTestNetParams) = true).
Proof.
  split.
  - intro params. unfold isTestnet.
    destruct (Z.eqb_spec (Net (bParams params)) bitcoinWire.TestNet3) as [E|E].
    + split; auto.
    + destruct (Z.eqb_spec (Net (bParams params))
                  (BitcoinNet monacoinWire.TestNet4)) as [E'|E'].
      * split; auto.
      * split; [discriminate | intros [H|H]; contradiction].
  - repeat split; reflexivity.
Qed.

End ChainParamsFacts.

Module RoundTrip.
Import Wire WireFacts TestVectors.

(** C2. Decoding the encoding of a kid output, or of a baby output, gives
    back the record, field for field, and consumes the encoding entirely;
    this for every record whose fields are values of their Go types. *)
Theorem decode_encode_roundtrip :
  (forall k : kidOutput,
      kidOutput_ok k -> kidDecode (kidEncode k) = Some (k, []))
  /\ (forall b : babyOutput,
        babyOutput_ok b -> babyDecode (babyEncode b) = Some (b, [])).
Proof.
  split.
  - intros k Hk. rewrite <- (app_nil_r (kidEncode k)).
    apply kidDecode_Encode. exact Hk.
  - intros b Hb. rewrite <- (app_nil_r (babyEncode b)).
    apply babyDecode_Encode. exact Hb.
Qed.

Ltac range_ok :=
  repeat match goal with
         | |- _ /\ _ => split
         | |- True => exact I
         | |- Forall ?P ?l =>
             let l' := eval vm_compute in l in
             change (Forall P l'); constructor
         | |- babyOutput_ok _ => unfold babyOutput_ok
         | |- kidOutput_ok _ => unfold kidOutput_ok
         | |- MsgTx_ok _ => unfold MsgTx_ok
         | |- SignDescriptor_ok _ => unfold SignDescriptor_ok
         | |- TxIn_ok _ => unfold TxIn_ok
         | |- TxOut_ok _ => unfold TxOut_ok
         | |- OutPoint_ok _ => unfold OutPoint_ok
         | |- opt_ok ?P ?o =>
             let o' := eval vm_compute in o in
             change (opt_ok P o'); cbv beta iota delta [opt_ok]
         | |- _ = _ => vm_compute; reflexivity
         | |- _ => vm_compute; split; [discriminate | reflexivity]
         | |- _ => vm_compute; reflexivity
         end.

Lemma kidOutput0_ok : kidOutput_ok kidOutput0.
Proof. range_ok. Defined.

Lemma babyOutput0_ok : babyOutput_ok babyOutput0.
Proof. range_ok. Defined.

(** The first kid and the first baby of the test vectors round-trip, as
    [TestKidOutputSerialization] and [TestBabyOutputSerialization] check. *)
Lemma decode_encode_roundtrip_witness :
  roundTrips kidEncode kidDecode kidOutput0
  /\ roundTrips babyEncode babyDecode babyOutput0.
Proof.
  split.
  - exact (proj1 decode_encode_roundtrip kidOutput0 kidOutput0_ok).
  - exact (proj2 decode_encode_roundtrip babyOutput0 babyOutput0_ok).
Defined.

End RoundTrip.

Module ChainRegistryFacts.
Import Stdlib.Strings.String.
Import stdpp.base stdpp.option stdpp.countable stdpp.fin_maps stdpp.gmap
  stdpp.list.
Import ChainRegistry.
Local Open Scope Z_scope.

(** [chainCode.String] names the two supported chains and nothing else:
    the result is "bitcoin" exactly for [bitcoinChain], "monacoin" exactly
    for [monacoinChain], and "kekcoin" exactly for every other code. *)
Theorem chainCode_String_cases (c : Z) :
  (chainCode_String c = "bitcoin"%string <-> c = bitcoinChain)
  /\ (chainCode_String c = "monacoin"%string <-> c = monacoinChain)
  /\ (chainCode_String c = "kekcoin"%string <->
      c <> bitcoinChain /\ c <> monacoinChain).
Proof.
  unfold chainCode_String, bitcoinChain, monacoinChain.
  destruct (Z.eqb_spec c 0) as [->|H0]; [|destruct (Z.eqb_spec c 1) as [->|H1]];
    (split; [|split]); split; intro H;
    try discriminate H; try reflexivity; try lia; try (split; lia).
Qed.

Section RegistryFacts.
Context {chainControl netParams : Type} (nil : chainControl).

(** X1. Looking up a chain right after registering it gives the registered
    control and [true], also when the chain was registered before (the new
    control replaces the old one); the lookups of all other chains and the
    primary chain are what they were. *)
Theorem LookupChain_RegisterChain (c : @chainRegistry chainControl netParams) (newChain : Z)
    (cc : chainControl) :
  LookupChain nil newChain (RegisterChain newChain cc c) = (cc, true)
  /\ (forall other, other <> newChain ->
        LookupChain nil other (RegisterChain newChain cc c)
        = LookupChain nil other c)
  /\ PrimaryChain (RegisterChain newChain cc c) = PrimaryChain c.
Proof.
  unfold LookupChain, RegisterChain, PrimaryChain. cbn. split; [|split].
  - rewrite lookup_insert_eq. reflexivity.
  - intros other Hne. rewrite lookup_insert_ne by congruence. reflexivity.
  - reflexivity.
Qed.

Lemma chainMap_lookup (h : list byte) :
  chainMap !! h =
    if decide (h = monacoinMainnetGenesis) then Some monacoinChain
    else if decide (h = bitcoinMainnetGenesis) then Some bitcoinChain
    else if decide (h = monacoinTestnetGenesis) then Some monacoinChain
    else if decide (h = bitcoinTestnetGenesis) then Some bitcoinChain
    else None.
Proof.
  unfold chainMap.
  destruct (decide (h = monacoinMainnetGenesis)) as [->|N1];
    [apply lookup_insert_eq | rewrite lookup_insert_ne by congruence].
  destruct (decide (h = bitcoinMainnetGenesis)) as [->|N2];
    [apply lookup_insert_eq | rewrite lookup_insert_ne by congruence].
  destruct (decide (h = monacoinTestnetGenesis)) as [->|N3];
    [apply lookup_insert_eq | rewrite lookup_insert_ne by congruence].
  destruct (decide (h = bitcoinTestnetGenesis)) as [->|N4];
    [apply lookup_insert_eq | rewrite lookup_insert_ne by congruence].
  apply lookup_empty.
Qed.

(** X2. [LookupChainByHash] answers [(nil, false)] for every hash that is
    not one of the four genesis hashes, whatever is registered. The testnet
    and the mainnet genesis hash of a coin resolve to the same chain: each
    gives what [LookupChain] gives for the coin's chain code. *)
Theorem LookupChainByHash_genesis (c : @chainRegistry chainControl netParams) :
  (forall h, h <> bitcoinTestnetGenesis -> h <> bitcoinMainnetGenesis ->
             h <> monacoinTestnetGenesis -> h <> monacoinMainnetGenesis ->
             LookupChainByHash nil h c = (nil, false))
  /\ LookupChainByHash nil bitcoinTestnetGenesis c
     = LookupChain nil bitcoinChain c
  /\ LookupChainByHash nil bitcoinMainnetGenesis c
     = LookupChain nil bitcoinChain c
  /\ LookupChainByHash nil monacoinTestnetGenesis c
     = LookupChain nil monacoinChain c
  /\ LookupChainByHash nil monacoinMainnetGenesis c
     = LookupChain nil monacoinChain c.
Proof.
  unfold LookupChainByHash. split; [|split; [|split; [|split]]].
  - intros h H1 H2 H3 H4. rewrite chainMap_lookup.
    repeat (rewrite decide_False by assumption). reflexivity.
  - rewrite chainMap_lookup. reflexivity.
  - rewrite chainMap_lookup. reflexivity.
  - rewrite chainMap_lookup. reflexivity.
  - rewrite chainMap_lookup. reflexivity.
Qed.

Lemma LookupChain_ok (c : @chainRegistry chainControl netParams) (k : Z) :
  snd (LookupChain nil k c) = true <-> is_Some (activeChains c !! k).
Proof.
  unfold LookupChain. destruct (activeChains c !! k) as [cc|]; cbn.
  - split; [eauto | reflexivity].
  - split; [discriminate | intros [x Hx]; discriminate].
Qed.

(** X3. [ActiveChains] lists every registered chain exactly once and no
    other: a chain is in the list if and only if [LookupChain] finds it,
    the list has no repetition, and [NumActiveChains] is its length (as a
    [uint32]). *)
Theorem ActiveChains_registered (c : @chainRegistry chainControl netParams) :
  (forall k, In k (ActiveChains c) <-> snd (LookupChain nil k c) = true)
  /\ List.NoDup (ActiveChains c)
  /\ NumActiveChains c = Z.of_nat (List.length (ActiveChains c)) mod 2 ^ 32.
Proof.
  unfold ActiveChains, NumActiveChains. split; [|split].
  - intro k. rewrite LookupChain_ok, <- list_elem_of_In, list_elem_of_fmap.
    split.
    + intros [[k' cc] [-> Hin]]. apply elem_of_map_to_list in Hin. eauto.
    + intros [cc Hcc]. exists (k, cc). split; [reflexivity|].
      apply elem_of_map_to_list. exact Hcc.
  - apply NoDup_ListNoDup, NoDup_fst_map_to_list.
  - rewrite length_fmap, length_map_to_list. reflexivity.
Qed.

(** X4. Registering a chain that is not yet registered adds one to the
    number of active chains (in [uint32] arithmetic); registering a chain
    again leaves the number as it is. *)
Theorem NumActiveChains_RegisterChain
    (c : @chainRegistry chainControl netParams) (k : Z) (cc : chainControl) :
  NumActiveChains (RegisterChain k cc c) =
    if snd (LookupChain nil k c) then NumActiveChains c
    else (NumActiveChains c + 1) mod 2 ^ 32.
Proof.
  unfold NumActiveChains, RegisterChain, LookupChain. cbn.
  rewrite map_size_insert.
  destruct (activeChains c !! k) as [old|]; cbn.
  - reflexivity.
  - rewrite Nat2Z.inj_succ, <- Z.add_1_r.
    rewrite Zplus_mod_idemp_l. reflexivity.
Qed.

(** X5. The primary chain is a field of its own: a new registry has
    [bitcoinChain] as primary chain although no chain is registered, and
    [RegisterPrimaryChain] sets the primary chain without registering it or
    changing what is registered. *)
Theorem PrimaryChain_independent_of_registration :
  PrimaryChain (@newChainRegistry chainControl netParams) = bitcoinChain
  /\ (forall k, LookupChain nil k (@newChainRegistry chainControl netParams)
                = (nil, false))
  /\ (forall (c : @chainRegistry chainControl netParams) (k : Z),
        PrimaryChain (RegisterPrimaryChain k c) = k
        /\ (forall k', LookupChain nil k' (RegisterPrimaryChain k c)
                       = LookupChain nil k' c)
        /\ ActiveChains (RegisterPrimaryChain k c) = ActiveChains c).
Proof.
  split; [reflexivity|]. split.
  - intro k. unfold LookupChain, newChainRegistry. cbn.
    rewrite lookup_empty. reflexivity.
  - intros c k. repeat split.
Qed.

End RegistryFacts.

Lemma LookupChain_RegisterChain_witness :
  LookupChain (chainControl := option nat) (netParams := unit) None 1
    (RegisterChain 0 (Some 7%nat) newChainRegistry)
  = LookupChain (chainControl := option nat) (netParams := unit) None 1
      newChainRegistry.
Proof.
  exact (proj1 (proj2 (LookupChain_RegisterChain
                         (chainControl := option nat) (netParams := unit)
                         None newChainRegistry 0 (Some 7%nat)))
           1 ltac:(discriminate)).
Defined.

Lemma LookupChainByHash_genesis_witness :
  LookupChainByHash (chainControl := option nat) (netParams := unit) None []
    (RegisterChain bitcoinChain (Some 7%nat) newChainRegistry)
  = (None, false).
Proof.
  exact (proj1 (LookupChainByHash_genesis
                  (chainControl := option nat) (netParams := unit) None
                  (RegisterChain bitcoinChain (Some 7%nat) newChainRegistry))
           [] ltac:(discriminate) ltac:(discriminate) ltac:(discriminate)
           ltac:(discriminate)).
Defined.

(** X6. Every genesis hash that has DNS seeds is a chain of [chainMap], and
    the testnet genesis of Monacoin is the one chain of [chainMap] without
    DNS seeds. *)
Theorem chainDNSSeeds_known_chains (h : list byte) :
  (is_Some (chainDNSSeeds !! h) -> is_Some (chainMap !! h))
  /\ (is_Some (chainMap !! h) /\ chainDNSSeeds !! h = None
      <-> h = monacoinTestnetGenesis).
Proof.
  rewrite chainMap_lookup. unfold chainDNSSeeds.
  destruct (decide (h = monacoinMainnetGenesis)) as [->|N1].
  { rewrite lookup_insert_eq. split; [eauto|].
    split; [intros [_ H]; discriminate | discriminate]. }
  rewrite lookup_insert_ne by congruence.
  destruct (decide (h = bitcoinMainnetGenesis)) as [->|N2].
  { rewrite lookup_insert_ne by discriminate. rewrite lookup_insert_eq.
    split; [eauto|]. split; [intros [_ H]; discriminate | discriminate]. }
  destruct (decide (h = monacoinTestnetGenesis)) as [->|N3].
  { rewrite lookup_insert_ne by discriminate.
    rewrite lookup_insert_ne by discriminate. rewrite lookup_empty.
    split; [eauto|]. split; [reflexivity | intros _; split; eauto]. }
  destruct (decide (h = bitcoinTestnetGenesis)) as [->|N4].
  { rewrite lookup_insert_eq. split; [eauto|].
    split; [intros [_ H]; discriminate | discriminate]. }
  rewrite lookup_insert_ne by congruence.
  rewrite lookup_insert_ne by congruence. rewrite lookup_empty.
  split; [intros [x Hx]; discriminate|].
  split; [intros [[x Hx] _]; discriminate | intros ->; contradiction].
Qed.

End ChainRegistryFacts.

Module ParamsHeapFacts.
Import Stdlib.Strings.String.
Import stdpp.base stdpp.option stdpp.countable stdpp.fin_maps stdpp.gmap
  stdpp.fin_sets stdpp.list.
Import ParamsHeap.
Local Open Scope Z_scope.

Lemma copy_same_length (dst src : list byte) :
  List.length dst = List.length src -> copy dst src = src.
Proof.
  intro H. unfold copy. rewrite H, take_ge, drop_ge by lia.
  apply app_nil_r.
Qed.

Lemma foldl_convert_None (mh : gmap ptr (list byte)) (cs : list Checkpoint) :
  foldl (fun acc c => convertCheckpoint acc mh c) None cs = None.
Proof. induction cs as [|c cs IH]; [reflexivity | exact IH]. Qed.

Lemma Forall2_right_all {A B} (R : A -> B -> Prop) (Q : B -> Prop)
    (l : list A) (k : list B) :
  Forall2 R l k -> (forall x y, R x y -> Q y) -> Forall Q k.
Proof.
  intros H HQ. induction H as [|x y l k Hxy _ IH]; constructor.
  - exact (HQ x y Hxy).
  - exact IH.
Qed.

(** What the checkpoint loop yields from an accumulator [(bh0, cps0)]. *)
Lemma foldl_convert_spec (mh : gmap ptr (list byte)) (cs : list Checkpoint) :
  forall bh0 cps0 bh' cps',
    foldl (fun acc c => convertCheckpoint acc mh c) (Some (bh0, cps0)) cs
    = Some (bh', cps') ->
    exists new,
      cps' = cps0 ++ new
      /\ Forall2 (fun c n =>
                    cp_Height n = cp_Height c
                    /\ (cp_Hash n ∉ dom bh0)
                    /\ exists src, mh !! cp_Hash c = Some src
                                   /\ bh' !! cp_Hash n
                                      = Some (copy zeroHash src)) cs new
      /\ NoDup (cp_Hash <$> new)
      /\ (forall a, a ∈ dom bh0 -> bh' !! a = bh0 !! a).
Proof.
  induction cs as [|c cs IH]; intros bh0 cps0 bh' cps' H.
  - cbn in H. injection H as <- <-. exists []. rewrite app_nil_r.
    split; [reflexivity|]. split; [constructor|].
    split; [constructor|]. reflexivity.
  - cbn in H. destruct (mh !! cp_Hash c) as [src|] eqn:Hsrc; cbn in H.
    2:{ rewrite foldl_convert_None in H. discriminate. }
    set (a := fresh (dom bh0)) in *.
    assert (Ha : a ∉ dom bh0) by apply is_fresh.
    destruct (IH _ _ _ _ H) as (new & -> & Hall & Hnd & Hframe).
    exists (mkCheckpoint (cp_Height c) a :: new).
    split; [rewrite <- app_assoc; reflexivity|].
    assert (Hdom : forall x,
               x ∈ dom bh0 -> x ∈ dom (<[a:=copy zeroHash src]> bh0)).
    { intros x Hx. rewrite dom_insert. set_solver. }
    assert (Hafter : bh' !! a = Some (copy zeroHash src)).
    { rewrite Hframe by (rewrite dom_insert; set_solver).
      apply lookup_insert_eq. }
    split; [|split].
    + constructor.
      * cbn. split; [reflexivity|]. split; [exact Ha|].
        exists src. split; assumption.
      * eapply Forall2_impl; [exact Hall|].
        intros c' n (Hh & Hn & Hs). split; [exact Hh|]. split; [|exact Hs].
        intro Hin. apply Hn, Hdom, Hin.
    + cbn. constructor; [|exact Hnd].
      intro Hin. apply list_elem_of_fmap in Hin as (n & Hn & Hin).
      assert (Hfresh : Forall (fun n => cp_Hash n ∉
                          dom (<[a:=copy zeroHash src]> bh0)) new).
      { eapply Forall2_right_all; [exact Hall|].
        intros x y (_ & Hy & _). exact Hy. }
      rewrite Forall_forall in Hfresh. apply (Hfresh n Hin).
      rewrite <- Hn, dom_insert. set_solver.
    + intros x Hx. rewrite Hframe by (apply Hdom, Hx).
      apply lookup_insert_ne. intros <-. contradiction.
Qed.

Lemma foldl_convert_total (mh : gmap ptr (list byte))
    (cs : list Checkpoint) :
  Forall (fun c => is_Some (mh !! cp_Hash c)) cs ->
  forall bh0 cps0,
    is_Some (foldl (fun acc c => convertCheckpoint acc mh c)
               (Some (bh0, cps0)) cs).
Proof.
  induction 1 as [|c cs [src Hsrc] _ IH]; intros bh0 cps0.
  - cbn. eauto.
  - cbn. rewrite Hsrc. cbn. apply IH.
Qed.

Section HeapFacts.
Context {Rest : Type}.

(** The successful run of [applyMonacoinParams], taken apart. *)
Lemma applyMonacoinParams_Some (h h' : @Heap Rest)
    (p p' : bitcoinNetParams) (mona : monacoinNetParams) :
  applyMonacoinParams h p mona = Some (h', p') ->
  exists P M dst src checkPoints,
    bparams h !! b_Params p = Some P
    /\ mparams h !! m_Params mona = Some M
    /\ bhashes h !! GenesisHash P = Some dst
    /\ mhashes h !! GenesisHash M = Some src
    /\ convertCheckpoints (<[GenesisHash P := copy dst src]> (bhashes h))
         (mhashes h) (Checkpoints M) = Some (bhashes h', checkPoints)
    /\ bparams h' = <[b_Params p :=
         mkParams (Name M) (BitcoinNet (Net M)) (DefaultPort M)
           (CoinbaseMaturity M) (GenesisHash P)
           (PubKeyHashAddrID M) (ScriptHashAddrID M) (PrivateKeyID M)
           (WitnessPubKeyHashAddrID M) (WitnessScriptHashAddrID M)
           (Bech32HRPSegwit M)
           (copy (HDPrivateKeyID P) (HDPrivateKeyID M))
           (copy (HDPublicKeyID P) (HDPublicKeyID M))
           (HDCoinType M) checkPoints (rest P)]> (bparams h)
    /\ mparams h' = mparams h /\ mhashes h' = mhashes h
    /\ p' = mkBitcoinNetParams (b_Params p) (m_rpcPort mona)
              (m_CoinType mona).
Proof.
  unfold applyMonacoinParams. intro H.
  destruct (bparams h !! b_Params p) as [P|] eqn:HP; [|discriminate].
  destruct (mparams h !! m_Params mona) as [M|] eqn:HM; [|discriminate].
  cbn in H.
  destruct (bhashes h !! GenesisHash P) as [dst|] eqn:Hd; [|discriminate].
  destruct (mhashes h !! GenesisHash M) as [src|] eqn:Hs; [|discriminate].
  cbn in H.
  destruct (convertCheckpoints _ _ _) as [[bh2 cps]|] eqn:Hc; [|discriminate].
  cbn in H. injection H as <- <-.
  exists P, M, dst, src, cps. cbn.
  repeat split; first [assumption | reflexivity].
Qed.

(** X7. The network parameters are shared through the embedded pointer:
    after [applyMonacoinParams] on one struct, every struct that holds the
    same [*chaincfg.Params] (a copy such as [activeNetParams], or the
    original) reads Monacoin's name and network magic and gets the same
    answer from [isTestnet], while the RPC port and the coin type are set
    on the struct passed in only. *)
Theorem applyMonacoinParams_shared (h h' : @Heap Rest)
    (p p' : bitcoinNetParams) (mona : monacoinNetParams) :
  applyMonacoinParams h p mona = Some (h', p') ->
  exists M P',
    mparams h !! m_Params mona = Some M
    /\ (forall q : bitcoinNetParams,
          b_Params q = b_Params p ->
          bparams h' !! b_Params q = Some P'
          /\ isTestnet h' q = isTestnet h' p')
    /\ Name P' = Name M /\ Net P' = BitcoinNet (Net M)
    /\ b_Params p' = b_Params p
    /\ b_rpcPort p' = m_rpcPort mona /\ b_CoinType p' = m_CoinType mona.
Proof.
  intro H.
  destruct (applyMonacoinParams_Some _ _ _ _ _ H)
    as (P & M & dst & src & cps & HP & HM & _ & _ & _ & Hb & _ & _ & ->).
  eexists M, _. split; [exact HM|]. split.
  - intros q Hq. unfold isTestnet. cbn. rewrite Hq, Hb.
    rewrite lookup_insert_eq. split; reflexivity.
  - cbn. repeat split.
Qed.

(** X8. The genesis hash is overwritten in place, in the object the
    bitcoin parameters point to, and the pointer stays the same. Every
    checkpoint of the result has the height of the Monacoin checkpoint at
    its position and points to a hash object of its own: one that did not
    exist before, holds the copied hash, and is shared with no other
    checkpoint of the result. *)
Theorem applyMonacoinParams_hashes (h h' : @Heap Rest)
    (p p' : bitcoinNetParams) (mona : monacoinNetParams) :
  applyMonacoinParams h p mona = Some (h', p') ->
  exists P M P' dst src,
    bparams h !! b_Params p = Some P
    /\ mparams h !! m_Params mona = Some M
    /\ bparams h' !! b_Params p = Some P'
    /\ GenesisHash P' = GenesisHash P
    /\ bhashes h !! GenesisHash P = Some dst
    /\ mhashes h !! GenesisHash M = Some src
    /\ bhashes h' !! GenesisHash P = Some (copy dst src)
    /\ Forall2 (fun c n =>
                  cp_Height n = cp_Height c
                  /\ (cp_Hash n ∉ dom (bhashes h))
                  /\ exists s, mhashes h !! cp_Hash c = Some s
                               /\ bhashes h' !! cp_Hash n
                                  = Some (copy zeroHash s))
         (Checkpoints M) (Checkpoints P')
    /\ NoDup (cp_Hash <$> Checkpoints P').
Proof.
  intro H.
  destruct (applyMonacoinParams_Some _ _ _ _ _ H)
    as (P & M & dst & src & cps & HP & HM & Hd & Hs & Hc & Hb & _ & _ & _).
  unfold convertCheckpoints in Hc.
  destruct (foldl_convert_spec _ _ _ _ _ _ Hc)
    as (new & Hnew & Hall & Hnd & Hframe).
  cbn in Hnew. subst cps.
  eexists P, M, _, dst, src.
  split; [exact HP|]. split; [exact HM|].
  split; [rewrite Hb; apply lookup_insert_eq|]. cbn.
  split; [reflexivity|]. split; [exact Hd|]. split; [exact Hs|].
  split; [|split].
  - rewrite Hframe by (rewrite dom_insert; set_solver).
    apply lookup_insert_eq.
  - eapply Forall2_impl; [exact Hall|].
    intros c n (Hh & Hn & Hsrc). split; [exact Hh|]. split; [|exact Hsrc].
    intro Hin. apply Hn. rewrite dom_insert. set_solver.
  - exact Hnd.
Qed.


(** X10. [applyMonacoinParams] runs to completion exactly when every
    pointer it dereferences has an object: the two [Params] pointers, the
    two genesis hashes and the hash of every Monacoin checkpoint.
    Otherwise it panics on a nil pointer. *)
Theorem applyMonacoinParams_completes (h : @Heap Rest)
    (p : bitcoinNetParams) (mona : monacoinNetParams) :
  is_Some (applyMonacoinParams h p mona) <->
  exists P M,
    bparams h !! b_Params p = Some P
    /\ mparams h !! m_Params mona = Some M
    /\ is_Some (bhashes h !! GenesisHash P)
    /\ is_Some (mhashes h !! GenesisHash M)
    /\ Forall (fun c => is_Some (mhashes h !! cp_Hash c)) (Checkpoints M).
Proof.
  split.
  - intros [[h' p'] H].
    destruct (applyMonacoinParams_Some _ _ _ _ _ H)
      as (P & M & dst & src & cps & HP & HM & Hd & Hs & Hc & _).
    exists P, M. rewrite Hd, Hs. repeat split; eauto.
    unfold convertCheckpoints in Hc.
    destruct (foldl_convert_spec _ _ _ _ _ _ Hc) as (new & _ & Hall & _).
    clear -Hall. induction Hall as [|c n cs ns (_ & _ & s & Hs & _) _ IH];
      constructor; eauto.
  - intros (P & M & HP & HM & [dst Hd] & [src Hs] & Hcs).
    unfold applyMonacoinParams. rewrite HP, HM. cbn. rewrite Hd, Hs. cbn.
    destruct (foldl_convert_total _ _ Hcs
                (<[GenesisHash P:=copy dst src]> (bhashes h)) [])
      as [[bh2 cps] Hc].
    unfold convertCheckpoints. rewrite Hc. cbn. eauto.
Qed.

End HeapFacts.

(** In the example, [isTestnet] was true for [bitcoinTestNetParams]; after
    the Monacoin main network is applied to the copy, it is false for
    both. *)
Lemma applyMonacoinParams_shared_witness :
  isTestnet exHeap exBitcoinTestNetParams = Some true
  /\ exists h' p',
       applyMonacoinParams exHeap exActiveNetParams exMonacoinMainNetParams
       = Some (h', p')
       /\ isTestnet h' exBitcoinTestNetParams = isTestnet h' p'
       /\ isTestnet h' p' = Some false.
Proof.
  split; [reflexivity|].
  destruct (applyMonacoinParams exHeap exActiveNetParams
              exMonacoinMainNetParams) as [[h' p']|] eqn:E.
  - exists h', p'. split; [reflexivity|].
    destruct (applyMonacoinParams_shared _ _ _ _ _ E)
      as (M & P' & HM & Hq & _ & HNet & Hp & _).
    split; [exact (proj2 (Hq exBitcoinTestNetParams eq_refl))|].
    destruct (Hq p' Hp) as [HP' _].
    unfold isTestnet. rewrite HP'. cbn. rewrite HNet.
    vm_compute in HM. injection HM as <-. reflexivity.
  - vm_compute in E. discriminate E.
Defined.

Lemma applyMonacoinParams_hashes_witness :
  exists h' p' P',
    applyMonacoinParams exHeap exActiveNetParams exMonacoinMainNetParams
    = Some (h', p')
    /\ bparams h' !! 1%nat = Some P'
    /\ List.length (Checkpoints P') = 2%nat
    /\ NoDup (cp_Hash <$> Checkpoints P').
Proof.
  destruct (applyMonacoinParams exHeap exActiveNetParams
              exMonacoinMainNetParams) as [[h' p']|] eqn:E.
  - destruct (applyMonacoinParams_hashes _ _ _ _ _ E)
      as (P & M & P' & dst & src & _ & HM & HP' & _ & _ & _ & _ & Hall & Hnd).
    exists h', p', P'. split; [reflexivity|]. split; [exact HP'|].
    split; [|exact Hnd].
    rewrite <- (Forall2_length _ _ _ Hall).
    vm_compute in HM. injection HM as <-. reflexivity.
  - vm_compute in E. discriminate E.
Defined.


End ParamsHeapFacts.

Module NurseryTestFacts.
Import Wire Store Nursery NurseryTest.

Lemma testRestartLoop_from (test : nat -> Test unit) (N : nat) :
  (forall i, currentStartStopIdx (snd (test i initialCtx)) = N) ->
  forall runs k, (k <= N)%nat -> (N - k < runs)%nat ->
    testRestartLoop test runs k
    = Some (map (fun i => passes (test i initialCtx)) (seq k (S N - k))).
Proof.
  intros HN runs. induction runs as [|runs IH]; intros k Hk Hruns; [lia|].
  cbn [testRestartLoop]. rewrite HN.
  destruct (Nat.eqb_spec N k) as [->|Hne].
  - replace (S k - k)%nat with 1%nat by lia. reflexivity.
  - rewrite IH by lia.
    replace (S N - k)%nat with (S (S N - S k)) by lia. reflexivity.
Qed.

(** X11. [testRestartLoop] on a test whose runs all pass through the same
    number [N] of restart points: the test is run [N + 1] times, first
    without a restart and then with the restart at the first, the second,
    ... the [N]-th restart point, in this order, and then the loop ends. *)
Theorem testRestartLoop_runs (test : nat -> Test unit) (N runs : nat) :
  (forall i, currentStartStopIdx (snd (test i initialCtx)) = N) ->
  (N < runs)%nat ->
  testRestartLoop test runs 0
  = Some (map (fun i => passes (test i initialCtx)) (seq 0 (S N))).
Proof.
  intros HN Hruns.
  rewrite (testRestartLoop_from test N HN runs 0) by lia.
  rewrite Nat.sub_0_r. reflexivity.
Qed.

Lemma testRestartLoop_runs_witness :
  testRestartLoop oneRestartPoint 2 0
  = Some (map (fun i => passes (oneRestartPoint i initialCtx)) (seq 0 2)).
Proof.
  apply (testRestartLoop_runs oneRestartPoint 1 2).
  - intro i. unfold oneRestartPoint, tbind, ctx_restart. cbn.
    destruct (Nat.eqb i 1); reflexivity.
  - lia.
Defined.



End NurseryTestFacts.

Module MockNotifierFacts.
Import stdpp.base stdpp.option stdpp.countable stdpp.fin_maps stdpp.gmap.
Import ChainRegistry MockNotifier.

Lemma reachable_channels_ok (m : nurseryMockNotifier) :
  reachable m -> channels_ok m.
Proof.
  induction 1 as [|txid m Hr (He & Hs & Hm & Hrange & Hinj)].
  - unfold channels_ok. cbn. split; [reflexivity|]. split; [reflexivity|].
    split; [lia|]. split; intros *; rewrite lookup_empty; discriminate.
  - unfold getConfChannel.
    destruct (confChannel m !! txid) as [ch|] eqn:E; unfold channels_ok; cbn.
    + split; [exact He|]. split; [exact Hs|]. split; [exact Hm|].
      split; assumption.
    + split; [exact He|]. split; [exact Hs|]. split; [lia|]. split.
      * intros t ch Ht. destruct (decide (t = txid)) as [->|Hne].
        -- rewrite lookup_insert_eq in Ht. injection Ht as <-. lia.
        -- rewrite lookup_insert_ne in Ht by congruence.
           specialize (Hrange _ _ Ht). lia.
      * intros t1 t2 ch H1 H2.
        destruct (decide (t1 = txid)) as [->|N1];
          destruct (decide (t2 = txid)) as [->|N2]; try reflexivity.
        -- rewrite lookup_insert_eq in H1. injection H1 as <-.
           rewrite lookup_insert_ne in H2 by congruence.
           specialize (Hrange _ _ H2). lia.
        -- rewrite lookup_insert_eq in H2. injection H2 as <-.
           rewrite lookup_insert_ne in H1 by congruence.
           specialize (Hrange _ _ H1). lia.
        -- rewrite lookup_insert_ne in H1 by congruence.
           rewrite lookup_insert_ne in H2 by congruence.
           eapply Hinj; eassumption.
Qed.

Lemma getConfChannel_lookup (txid : list byte) (m : nurseryMockNotifier) :
  confChannel (snd (getConfChannel txid m)) !! txid
  = Some (fst (getConfChannel txid m)).
Proof.
  unfold getConfChannel.
  destruct (confChannel m !! txid) as [ch|] eqn:E; cbn.
  - exact E.
  - apply lookup_insert_eq.
Qed.

Lemma getConfChannel_keeps (t txid : list byte) (ch : chan)
    (m : nurseryMockNotifier) :
  confChannel m !! txid = Some ch ->
  confChannel (snd (getConfChannel t m)) !! txid = Some ch.
Proof.
  intro H. unfold getConfChannel.
  destruct (confChannel m !! t) as [c|] eqn:E; cbn.
  - exact H.
  - rewrite lookup_insert_ne; [exact H|]. intros <-. congruence.
Qed.

Lemma getConfChannel_known (txid : list byte) (ch : chan)
    (m : nurseryMockNotifier) :
  confChannel m !! txid = Some ch -> getConfChannel txid m = (ch, m).
Proof. intro H. unfold getConfChannel. rewrite H. reflexivity. Qed.

(** X13. A txid keeps its channel. Once [getConfChannel] has answered for a
    txid, asking again gives the same channel and changes nothing, also
    after any number of calls for other txids: a registration
    ([RegisterConfirmationsNtfn]) and a confirmation ([confirmTx]) of the
    same txid meet on one channel, whichever comes first. *)
Theorem getConfChannel_stable (txid : list byte) (m : nurseryMockNotifier)
    (others : list (list byte)) :
  let ch := fst (RegisterConfirmationsNtfn txid 1 0 m) in
  let m1 := snd (RegisterConfirmationsNtfn txid 1 0 m) in
  let m2 := fold_left (fun n t => snd (getConfChannel t n)) others m1 in
  getConfChannel txid m1 = (ch, m1)
  /\ confirmTx_channel txid m2 = (ch, m2)
  /\ fst (RegisterConfirmationsNtfn txid 1 0
            (snd (confirmTx_channel txid m)))
     = fst (confirmTx_channel txid m).
Proof.
  unfold RegisterConfirmationsNtfn, confirmTx_channel. cbv zeta.
  split; [|split].
  - apply getConfChannel_known, getConfChannel_lookup.
  - apply getConfChannel_known.
    generalize (getConfChannel_lookup txid m).
    generalize (fst (getConfChannel txid m)) as ch.
    generalize (snd (getConfChannel txid m)) as m1.
    induction others as [|t others IH]; intros m1 ch H; cbn.
    + exact H.
    + apply IH, getConfChannel_keeps, H.
  - rewrite (getConfChannel_known txid _ _ (getConfChannel_lookup txid m)).
    reflexivity.
Qed.

(** X14. Channels are not shared: in every notifier a test can bring about,
    two different txids get two different confirmation channels, and
    neither is the epoch channel or the spend channel. A confirmation sent
    for one txid cannot be received by who waits for another. *)
Theorem getConfChannel_distinct (m : nurseryMockNotifier)
    (t1 t2 : list byte) :
  reachable m -> t1 <> t2 ->
  let c1 := fst (getConfChannel t1 m) in
  let m1 := snd (getConfChannel t1 m) in
  let c2 := fst (getConfChannel t2 m1) in
  let m2 := snd (getConfChannel t2 m1) in
  c1 <> c2
  /\ c1 <> RegisterBlockEpochNtfn m2 /\ c2 <> RegisterBlockEpochNtfn m2
  /\ (forall op hint, c1 <> RegisterSpendNtfn op hint m2
                      /\ c2 <> RegisterSpendNtfn op hint m2).
Proof.
  intros Hr Hne. cbv zeta.
  set (m1 := snd (getConfChannel t1 m)).
  set (m2 := snd (getConfChannel t2 m1)).
  assert (Hok : channels_ok m2).
  { apply reachable_channels_ok. repeat constructor. exact Hr. }
  destruct Hok as (He & Hs & _ & Hrange & Hinj).
  assert (H1 : confChannel m2 !! t1 = Some (fst (getConfChannel t1 m))).
  { apply getConfChannel_keeps, getConfChannel_lookup. }
  assert (H2 : confChannel m2 !! t2 = Some (fst (getConfChannel t2 m1))).
  { apply getConfChannel_lookup. }
  pose proof (Hrange _ _ H1) as R1. pose proof (Hrange _ _ H2) as R2.
  unfold RegisterBlockEpochNtfn, RegisterSpendNtfn.
  split; [|rewrite He, Hs; repeat split; lia].
  intro Heq. apply Hne. eapply Hinj; [exact H1|]. rewrite Heq. exact H2.
Qed.

Lemma getConfChannel_distinct_witness :
  fst (getConfChannel [] newNurseryMockNotifier)
  <> fst (getConfChannel [x00]
            (snd (getConfChannel [] newNurseryMockNotifier))).
Proof.
  exact (proj1 (getConfChannel_distinct newNurseryMockNotifier [] [x00]
                  reachable_new ltac:(discriminate))).
Defined.

End MockNotifierFacts.

Module BackendHostFacts.
Import Stdlib.Strings.String Stdlib.Strings.Ascii.
Import BackendHost.
Local Open Scope Z_scope.

Lemma index_0_cons (s1 s2 : string) (c : ascii) :
  index 0 s1 (String c s2) =
    if prefix s1 (String c s2) then Some 0%nat
    else match index 0 s1 s2 with
         | Some n => Some (S n)
         | None => None
         end.
Proof. reflexivity. Qed.

Lemma Contains_colon_app (a b : string) :
  strings_Contains (a ++ ":" ++ b) ":" = true.
Proof.
  unfold strings_Contains.
  assert (H : exists n, index 0 ":" (a ++ ":" ++ b) = Some n).
  { induction a as [|c a [n IH]].
    - exists 0%nat. change ("" ++ ":" ++ b)%string with (String ":" b).
      rewrite index_0_cons. cbn. destruct b; reflexivity.
    - change (String c a ++ ":" ++ b)%string
        with (String c (a ++ ":" ++ b)).
      rewrite index_0_cons, IH.
      destruct (prefix ":" (String c (a ++ ":" ++ b))); eexists; reflexivity. }
  destruct H as [n ->]. reflexivity.
Qed.

(** X15. The address computed for the backend always names a port: whenever
    [bitcoindHost] or [btcdHost] yields an address, it contains a colon, so
    that an address once computed is taken as it is when given back as the
    RPC host. *)
Theorem backend_host_has_port
    (bitcoinActive bitcoinRegTest monacoinActive : bool)
    (h1 h2 rpcPort : string) (dial : string -> bool) (s : string) :
  (bitcoindHost bitcoinActive bitcoinRegTest monacoinActive h1 h2 rpcPort
     dial = Host s
   \/ btcdHost bitcoinActive monacoinActive h1 h2 rpcPort = Host s) ->
  strings_Contains s ":" = true
  /\ bitcoindHost true false false s s rpcPort dial = Host s
  /\ btcdHost true false s s rpcPort = Host s.
Proof.
  intro H.
  assert (Hc : strings_Contains s ":" = true).
  { destruct H as [H|H].
    - unfold bitcoindHost in H.
      destruct (pickMode _ _ _ _) as [host|]; [|discriminate].
      destruct (strings_Contains host ":") eqn:E.
      + injection H as <-. exact E.
      + destruct (Atoi rpcPort) as [port|]; [|discriminate].
        cbv zeta in H.
        destruct (bitcoinActive && bitcoinRegTest);
          [destruct (dial _)|]; injection H as <-;
          apply Contains_colon_app.
    - unfold btcdHost in H.
      destruct (pickMode _ _ _ _) as [host|]; [|discriminate].
      destruct (strings_Contains host ":") eqn:E; injection H as <-.
      + exact E.
      + apply Contains_colon_app. }
  split; [exact Hc|].
  unfold bitcoindHost, btcdHost, pickMode. rewrite Hc. split; reflexivity.
Qed.

Lemma backend_host_has_port_witness :
  strings_Contains "localhost:18332" ":" = true
  /\ bitcoindHost true false false "localhost:18332" "localhost:18332"
       "18334" (fun _ => true) = Host "localhost:18332"
  /\ btcdHost true false "localhost:18332" "localhost:18332" "18334"
     = Host "localhost:18332".
Proof.
  apply (backend_host_has_port true false false "localhost" "" "18334"
           (fun _ => true) "localhost:18332").
  left. reflexivity.
Defined.

(** X16. For an RPC host that names no port, the address of bitcoind or
    monacoind gets the RPC port of the active parameters less two: 18332,
    8332, 18554, 19398, 9398 and 18332 for the six parameter sets of
    [chainparams.go]. On Bitcoin's regtest the port is 18332 if something
    answers the probe there and 18443 otherwise. The address of btcd or
    monad gets the RPC port of the parameters itself. *)
Theorem backend_host_default_port (host other : string)
    (dial : string -> bool) :
  strings_Contains host ":" = false ->
  Forall2 (fun rpcPort port =>
             bitcoindHost true false false host other rpcPort dial
             = Host (host ++ ":" ++ port)
             /\ bitcoindHost false true true other host rpcPort dial
                = Host (host ++ ":" ++ port)
             /\ btcdHost true false host other rpcPort
                = Host (host ++ ":" ++ rpcPort))
    rpcPorts ["18332"; "8332"; "18554"; "19398"; "9398"; "18332"]%string
  /\ bitcoindHost true true false host other "18334" dial
     = Host (host ++ (if dial (host ++ ":18332")%string
                      then ":18332" else ":18443")).
Proof.
  intro Hc. split.
  - unfold rpcPorts, bitcoindHost, btcdHost, pickMode. rewrite Hc.
    repeat constructor.
  - unfold bitcoindHost, pickMode. rewrite Hc.
    change (Atoi "18334") with (Some 18334). cbv beta iota zeta.
    change (Itoa (int_sub 18334 2)) with "18332"%string.
    change (Itoa 18443) with "18443"%string.
    change (":" ++ "18332")%string with ":18332"%string.
    change (":" ++ "18443")%string with ":18443"%string.
    cbn [andb]. destruct (dial (host ++ ":18332")%string); reflexivity.
Qed.

Lemma backend_host_default_port_witness :
  bitcoindHost true true false "127.0.0.1" "" "18334" (fun _ => false)
  = Host "127.0.0.1:18443".
Proof.
  exact (proj2 (backend_host_default_port "127.0.0.1" "" (fun _ => false)
                  eq_refl)).
Defined.

(** X17. The three ways the computation of the bitcoind address ends. It
    dereferences a nil mode exactly when neither chain is active. It
    returns the error of [strconv.Atoi] exactly when the host of the chosen
    mode names no port and the RPC port of the parameters is not a number.
    A host that names a port is the address, whatever the RPC port of the
    parameters is; the mode of Bitcoin is chosen when both chains are
    active. *)
Theorem bitcoindHost_outcomes
    (bitcoinActive bitcoinRegTest monacoinActive : bool)
    (h1 h2 rpcPort : string) (dial : string -> bool) :
  let r := bitcoindHost bitcoinActive bitcoinRegTest monacoinActive h1 h2
             rpcPort dial in
  (r = Panic <-> bitcoinActive = false /\ monacoinActive = false)
  /\ (r = Error <->
      exists host,
        pickMode bitcoinActive monacoinActive h1 h2 = Some host
        /\ strings_Contains host ":" = false /\ Atoi rpcPort = None)
  /\ (forall host,
        pickMode bitcoinActive monacoinActive h1 h2 = Some host ->
        strings_Contains host ":" = true -> r = Host host)
  /\ (bitcoinActive = true ->
      pickMode bitcoinActive monacoinActive h1 h2 = Some h1).
Proof.
  cbv zeta. unfold bitcoindHost, pickMode.
  destruct bitcoinActive, monacoinActive; cbn [andb];
    repeat match goal with
           | |- context [strings_Contains ?h ":"] =>
               destruct (strings_Contains h ":") eqn:?
           | |- context [Atoi rpcPort] => destruct (Atoi rpcPort) eqn:?
           | |- context [if bitcoinRegTest then _ else _] =>
               destruct bitcoinRegTest
           | |- context [if dial ?a then _ else _] => destruct (dial a)
           end;
    repeat split; intros;
    repeat match goal with
           | H : exists _, _ |- _ => destruct H as (? & ? & ? & ?)
           | H : _ /\ _ |- _ => destruct H
           | H : Some _ = Some _ |- _ => injection H as <-
           end;
    try discriminate; try congruence; eauto.
Qed.

End BackendHostFacts.
